(** * IP analyzer page: network fetcher, environment inspector, privacy scorer

    A shallow embedding of [src/pages/Index.tsx] (the two page variants of
    the repository carry the same logic and differ in markup only).

    - JavaScript strings are modelled as [string]: a sequence of code units.
      Every pattern the page searches for is ASCII.
    - JavaScript numbers coming out of the provider response are modelled as
      [spec_float]; the privacy score only ever holds integers and is a [Z].
    - The object parsed from the provider response is a [gmap] from property
      names to values.
    - React state is a record threaded through a small state-and-exception
      monad: a [throw] keeps the state written so far, as in the page. *)

From Stdlib Require Import ZArith Ascii String DecimalString Lia.
From Stdlib Require Import Floats.SpecFloat.
From stdpp Require Import gmap strings.

Local Open Scope string_scope.
Local Open Scope Z_scope.

(** ** Strings *)

Module Str.

(** [String.prototype.startsWith], the building block of the searches. *)
Fixpoint startsWith (p s : string) : bool :=
  match p, s with
  | EmptyString, _ => true
  | String a p', String b s' => if Ascii.eqb a b then startsWith p' s' else false
  | String _ _, EmptyString => false
  end.

(** [s.includes(needle)]: some position of [s] starts with [needle]. *)
Fixpoint includes (needle s : string) : bool :=
  startsWith needle s ||
  match s with
  | EmptyString => false
  | String _ s' => includes needle s'
  end.

Definition isUpper (c : ascii) : bool :=
  ((65 <=? Z.of_N (N_of_ascii c)) && (Z.of_N (N_of_ascii c) <=? 90))%Z.

Definition lowerChar (c : ascii) : ascii :=
  if isUpper c then ascii_of_N (N_of_ascii c + 32) else c.

(** [s.toLowerCase()] on the code units A-Z; all others are kept.  The page
    only searches the result for "google", "cloudflare" and "residential";
    the two characters outside ASCII whose lower case contains an ASCII
    letter (U+212A to k, U+0130 to i followed by U+0307) cannot form part
    of an occurrence of any of the three. *)
Fixpoint toLowerCase (s : string) : string :=
  match s with
  | EmptyString => EmptyString
  | String c s' => String (lowerChar c) (toLowerCase s')
  end.

Definition isDigit (c : ascii) : bool :=
  ((48 <=? Z.of_N (N_of_ascii c)) && (Z.of_N (N_of_ascii c) <=? 57))%Z.

(** The longest run of digits at the start of [s]: what a greedy [\d+]
    consumes. *)
Fixpoint takeDigits (s : string) : string :=
  match s with
  | String c s' => if isDigit c then String c (takeDigits s') else EmptyString
  | EmptyString => EmptyString
  end.

Fixpoint dropPrefix (p s : string) : string :=
  match p, s with
  | String _ p', String _ s' => dropPrefix p' s'
  | _, _ => s
  end.

(** The regular expression [/tag(\d+)/] tried at the first position of [s]:
    it needs [tag] followed by at least one digit, and the group captures
    the whole run of digits. *)
Definition matchHere (tag s : string) : option string :=
  if startsWith tag s then
    match takeDigits (dropPrefix tag s) with
    | EmptyString => None
    | d => Some d
    end
  else None.

(** [s.match(/tag(\d+)/)?.[1]]: the expression is tried at each position
    from the left and the first match is the result.  [None] stands for
    [undefined] (no match). *)
Fixpoint matchDigitsAfter (tag s : string) : option string :=
  match matchHere tag s with
  | Some d => Some d
  | None =>
      match s with
      | EmptyString => None
      | String _ s' => matchDigitsAfter tag s'
      end
  end.

End Str.

(** ** JavaScript values *)

(** The values [JSON.parse] can return, and [undefined] for the properties
    that are not there. *)
#[warnings="-register-all"] Inductive value : Type :=
  | VUndefined
  | VNull
  | VBool (b : bool)
  | VNum (x : spec_float)
  | VStr (s : string)
  | VArr (l : list value)
  | VObj (m : gmap string value).

(** ToBoolean. *)
Definition truthy (v : value) : bool :=
  match v with
  | VUndefined | VNull => false
  | VBool b => b
  | VNum (S754_zero _) | VNum S754_nan => false
  | VNum _ => true
  | VStr EmptyString => false
  | VStr _ => true
  | VArr _ | VObj _ => true
  end.

(** [a || b]. *)
Definition or_else (a b : value) : value := if truthy a then a else b.

Inductive error : Type :=
  | NetworkError
  | SyntaxError
  | TypeError.

Inductive result (A : Type) : Type :=
  | Normal (a : A)
  | Throw (e : error).
Arguments Normal {A} a.
Arguments Throw {A} e.

(** [data.key] for the keys the page reads ([ip], [country_name], ...):
    none of them is a property of a prototype, so only an object's own
    properties answer; [null] and [undefined] have no properties at all. *)
Definition getProp (data : value) (key : string) : result value :=
  match data with
  | VUndefined | VNull => Throw TypeError
  | VObj m => Normal (default VUndefined (m !! key))
  | _ => Normal VUndefined
  end.

(** ** The ambient environment *)

(** What the page reads from [navigator], [location], [window] and
    [window.screen].  It is only read, never written. *)
Module Env.
Record t : Type := mk {
  nav_userAgent : string;
  nav_platform : string;
  nav_language : string;
  nav_cookieEnabled : bool;
  (** [navigator.geolocation] is an object where the capability exists and
      [undefined] elsewhere; only its truthiness is used. *)
  nav_geolocation : bool;
  location_protocol : string;
  (** whether [typeof window.java] is not ['undefined'] *)
  window_java : bool;
  screen_width : Z;
  screen_height : Z;
  window_innerWidth : Z;
  window_innerHeight : Z
}.
End Env.

(** What the network gives back to [fetch] and then to [response.json()]. *)
Inductive body : Type :=
  | NotJSON
  | JSON (data : value).

Record Response : Type := mkResponse {
  status : Z;
  responseBody : body
}.

Inductive fetch_outcome : Type :=
  | Rejected
  | Resolved (response : Response).

(** ** Records of the page *)

(** [interface IPInfo].  The fields are filled from an untyped response, so
    at run time each holds whatever value the expression produced. *)
Record IPInfo : Type := mkIPInfo {
  ip : value;
  country : value;
  region : value;
  city : value;
  isp : value;
  timezone : value;
  lat : value;
  lon : value
}.

Record BrowserInfo : Type := mkBrowserInfo {
  browser : string;
  version : string;
  os : string;
  platform : string;
  language : string;
  userAgent : string;
  cookiesEnabled : bool;
  javaEnabled : bool;
  screen : string;
  viewport : string
}.

Inductive SecurityLevel : Type := low | medium | high.

(** The five [useState] slots, and what was written to [console.error]. *)
Record State : Type := mkState {
  ipInfo : option IPInfo;
  browserInfo : option BrowserInfo;
  loading : bool;
  privacyScore : Z;
  securityLevel : SecurityLevel;
  console : list error
}.

Definition initialState : State :=
  mkState None None true 0 medium [].

(** ** State and exceptions *)

Definition M (A : Type) : Type := State -> result A * State.

#[export] Instance result_ret : MRet result := fun _ a => Normal a.
#[export] Instance result_bind : MBind result := fun _ _ k r =>
  match r with
  | Normal a => k a
  | Throw e => Throw e
  end.

#[export] Instance M_ret : MRet M := fun _ a st => (Normal a, st).
#[export] Instance M_bind : MBind M := fun _ _ k c st =>
  match c st with
  | (Normal a, st') => k a st'
  | (Throw e, st') => (Throw e, st')
  end.

(** An expression that reads no state, inside a routine that does. *)
Definition lift {A} (r : result A) : M A := fun st => (r, st).

(** [try { body } catch (e) { handler } finally { final }] *)
Definition try_catch_finally {A}
    (body : M A) (handler : error -> M A) (final : M unit) : M A :=
  fun st =>
    let (r, st1) :=
      match body st with
      | (Normal a, st') => (Normal a, st')
      | (Throw e, st') => handler e st'
      end in
    match final st1 with
    | (Normal _, st2) => (r, st2)
    | (Throw e, st2) => (Throw e, st2)
    end.

Definition setIpInfo (i : IPInfo) : M unit := fun st =>
  (Normal tt, mkState (Some i) (browserInfo st) (loading st)
                      (privacyScore st) (securityLevel st) (console st)).

Definition setBrowserInfo (b : BrowserInfo) : M unit := fun st =>
  (Normal tt, mkState (ipInfo st) (Some b) (loading st)
                      (privacyScore st) (securityLevel st) (console st)).

Definition setLoading (b : bool) : M unit := fun st =>
  (Normal tt, mkState (ipInfo st) (browserInfo st) b
                      (privacyScore st) (securityLevel st) (console st)).

Definition setPrivacyScore (n : Z) : M unit := fun st =>
  (Normal tt, mkState (ipInfo st) (browserInfo st) (loading st)
                      n (securityLevel st) (console st)).

Definition setSecurityLevel (l : SecurityLevel) : M unit := fun st =>
  (Normal tt, mkState (ipInfo st) (browserInfo st) (loading st)
                      (privacyScore st) l (console st)).

Definition console_error (e : error) : M unit := fun st =>
  (Normal tt, mkState (ipInfo st) (browserInfo st) (loading st)
                      (privacyScore st) (securityLevel st) (console st ++ [e])).

(** ** The routines of the page *)

(** [x || 'Unknown'] where [x] is a captured group or [undefined]. *)
Definition orUnknown (o : option string) : string :=
  match o with
  | Some (String c d) => String c d
  | Some EmptyString | None => "Unknown"
  end.

(** A template literal prints an integer in decimal. *)
Definition numberToString (n : Z) : string :=
  NilZero.string_of_int (Z.to_int n).

(** The browser test of [getBrowserInfo]: family and version. *)
Definition detectBrowser (userAgent : string) : string * string :=
  if Str.includes "Chrome" userAgent then
    ("Chrome", orUnknown (Str.matchDigitsAfter "Chrome/" userAgent))
  else if Str.includes "Firefox" userAgent then
    ("Firefox", orUnknown (Str.matchDigitsAfter "Firefox/" userAgent))
  else if Str.includes "Safari" userAgent then
    ("Safari", orUnknown (Str.matchDigitsAfter "Version/" userAgent))
  else if Str.includes "Edge" userAgent then
    ("Edge", orUnknown (Str.matchDigitsAfter "Edge/" userAgent))
  else ("Unknown", "Unknown").

(** The operating-system test of [getBrowserInfo]. *)
Definition detectOS (userAgent : string) : string :=
  if Str.includes "Windows" userAgent then "Windows"
  else if Str.includes "Mac" userAgent then "macOS"
  else if Str.includes "Linux" userAgent then "Linux"
  else if Str.includes "Android" userAgent then "Android"
  else if Str.includes "iOS" userAgent then "iOS"
  else "Unknown".

Definition getBrowserInfo (env : Env.t) : M unit :=
  let userAgent := Env.nav_userAgent env in
  let '(browser, version) := detectBrowser userAgent in
  let os := detectOS userAgent in
  let info := {|
    browser := browser;
    version := version;
    os := os;
    platform := Env.nav_platform env;
    language := Env.nav_language env;
    userAgent := Env.nav_userAgent env;
    cookiesEnabled := Env.nav_cookieEnabled env;
    javaEnabled := Env.window_java env;
    screen := numberToString (Env.screen_width env) ++ "x"
              ++ numberToString (Env.screen_height env);
    viewport := numberToString (Env.window_innerWidth env) ++ "x"
                ++ numberToString (Env.window_innerHeight env)
  |} in
  setBrowserInfo info.

(** [v.toLowerCase()]: only a string has the method; calling it on anything
    else is a [TypeError]. *)
Definition toLowerCase (v : value) : result string :=
  match v with
  | VStr s => Normal (Str.toLowerCase s)
  | _ => Throw TypeError
  end.

Definition calculatePrivacyScore (env : Env.t) (ipData : IPInfo) : M unit :=
  let score := 100 in
  let score :=
    if negb (Str.includes "https" (Env.location_protocol env))
    then score - 20 else score in
  let score := if Env.nav_cookieEnabled env then score - 10 else score in
  let score := if Env.nav_geolocation env then score - 15 else score in
  l ← lift (toLowerCase (isp ipData));
  googleOrCloudflare ←
    (if Str.includes "google" l then mret true
     else l' ← lift (toLowerCase (isp ipData));
          mret (Str.includes "cloudflare" l'));
  score ←
    (if googleOrCloudflare : bool then
       setSecurityLevel high;; mret (score - 5)
     else
       l ← lift (toLowerCase (isp ipData));
       if Str.includes "residential" l then
         setSecurityLevel low;; mret (score - 15)
       else
         setSecurityLevel medium;; mret score);
  setPrivacyScore (Z.max score 0).

Definition fallbackData : IPInfo := {|
  ip := VStr "192.168.1.1";
  country := VStr "Demo Country";
  region := VStr "Demo Region";
  city := VStr "Demo City";
  isp := VStr "Demo ISP";
  timezone := VStr "UTC";
  lat := VNum (S754_zero false);
  lon := VNum (S754_zero false)
|}.

(** The object literal [formattedData]; its fields are evaluated in order. *)
Definition formattedData (data : value) : result IPInfo :=
  ip ← getProp data "ip";
  country_name ← getProp data "country_name";
  region ← getProp data "region";
  city ← getProp data "city";
  org ← getProp data "org";
  timezone ← getProp data "timezone";
  latitude ← getProp data "latitude";
  longitude ← getProp data "longitude";
  mret {|
    ip := or_else ip (VStr "Unknown");
    country := or_else country_name (VStr "Unknown");
    region := or_else region (VStr "Unknown");
    city := or_else city (VStr "Unknown");
    isp := or_else org (VStr "Unknown");
    timezone := or_else timezone (VStr "Unknown");
    lat := or_else latitude (VNum (S754_zero false));
    lon := or_else longitude (VNum (S754_zero false))
  |}.

(** [await fetch(url)]: rejects on a network error, and resolves with the
    response whatever its status. *)
Definition fetch (net : fetch_outcome) : result Response :=
  match net with
  | Rejected => Throw NetworkError
  | Resolved response => Normal response
  end.

(** [await response.json()]: rejects when the body is not JSON. *)
Definition json (response : Response) : result value :=
  match responseBody response with
  | NotJSON => Throw SyntaxError
  | JSON data => Normal data
  end.

Definition fetchIPInfo (env : Env.t) (net : fetch_outcome) : M unit :=
  try_catch_finally
    (response ← lift (fetch net);
     data ← lift (json response);
     formattedData ← lift (formattedData data);
     setIpInfo formattedData;;
     calculatePrivacyScore env formattedData)
    (fun error =>
       console_error error;;
       setIpInfo fallbackData;;
       calculatePrivacyScore env fallbackData)
    (setLoading false).

(** ** What the specification's words mean *)

Module Spec.

(** "[s] contains the substring [needle]". *)
Definition occurs_in (needle s : string) : Prop :=
  exists pre post, s = pre ++ needle ++ post.

(** Two strings that differ in the case of their letters only. *)
Definition same_up_to_case (a b : string) : Prop :=
  Str.toLowerCase a = Str.toLowerCase b.

(** "[s] contains [needle], case-insensitively". *)
Definition occurs_ci (needle s : string) : Prop :=
  exists w, same_up_to_case w needle /\ occurs_in w s.

Fixpoint digits (d : string) : Prop :=
  match d with
  | EmptyString => True
  | String c d' => Str.isDigit c = true /\ digits d'
  end.

Definition no_digit_ahead (s : string) : Prop :=
  match s with
  | EmptyString => True
  | String c _ => Str.isDigit c = false
  end.

(** [d] is what the pattern "[tag]<digits>" extracts from [s]: the whole run
    of digits after the leftmost [tag] that has a digit behind it. *)
Definition extracts (tag s d : string) : Prop :=
  exists pre post,
    s = pre ++ tag ++ d ++ post /\
    d <> "" /\ digits d /\ no_digit_ahead post /\
    forall pre' rest,
      s = pre' ++ tag ++ rest ->
      (String.length pre' < String.length pre)%nat ->
      no_digit_ahead rest.

(** The pattern "[tag]<digits>" occurs nowhere in [s]. *)
Definition no_match (tag s : string) : Prop :=
  forall pre rest, s = pre ++ tag ++ rest -> no_digit_ahead rest.

(** The version reported for a family whose pattern starts with [tag]. *)
Definition version_of (tag s v : string) : Prop :=
  extracts tag s v \/ (no_match tag s /\ v = "Unknown").

(** The deduction table of the scorer, row by row. *)
Definition transport_deduction (secure : bool) : Z :=
  if secure then 0 else 20.
Definition cookie_deduction (cookies : bool) : Z :=
  if cookies then 10 else 0.
Definition geolocation_deduction (geolocation : bool) : Z :=
  if geolocation then 15 else 0.

Definition google_or_cloudflare (provider : string) : Prop :=
  occurs_ci "google" provider \/ occurs_ci "cloudflare" provider.

(** The provider-name rows: the deduction and the level a name gets. *)
Definition provider_row (provider : string) (d : Z) (lvl : SecurityLevel) : Prop :=
  (google_or_cloudflare provider /\ d = 5 /\ lvl = high) \/
  (~ google_or_cloudflare provider /\ occurs_ci "residential" provider /\
   d = 15 /\ lvl = low) \/
  (~ google_or_cloudflare provider /\ ~ occurs_ci "residential" provider /\
   d = 0 /\ lvl = medium).

(** Browser family and version: ordered tests, first match wins. *)
Definition browser_rule (ua family v : string) : Prop :=
  (occurs_in "Chrome" ua /\ family = "Chrome" /\ version_of "Chrome/" ua v) \/
  (~ occurs_in "Chrome" ua /\ occurs_in "Firefox" ua /\
   family = "Firefox" /\ version_of "Firefox/" ua v) \/
  (~ occurs_in "Chrome" ua /\ ~ occurs_in "Firefox" ua /\
   occurs_in "Safari" ua /\
   family = "Safari" /\ version_of "Version/" ua v) \/
  (~ occurs_in "Chrome" ua /\ ~ occurs_in "Firefox" ua /\
   ~ occurs_in "Safari" ua /\ occurs_in "Edge" ua /\
   family = "Edge" /\ version_of "Edge/" ua v) \/
  (~ occurs_in "Chrome" ua /\ ~ occurs_in "Firefox" ua /\
   ~ occurs_in "Safari" ua /\ ~ occurs_in "Edge" ua /\
   family = "Unknown" /\ v = "Unknown").

(** Operating system: ordered tests, first match wins. *)
Definition os_rule (ua o : string) : Prop :=
  (occurs_in "Windows" ua /\ o = "Windows") \/
  (~ occurs_in "Windows" ua /\ occurs_in "Mac" ua /\ o = "macOS") \/
  (~ occurs_in "Windows" ua /\ ~ occurs_in "Mac" ua /\
   occurs_in "Linux" ua /\ o = "Linux") \/
  (~ occurs_in "Windows" ua /\ ~ occurs_in "Mac" ua /\
   ~ occurs_in "Linux" ua /\ occurs_in "Android" ua /\ o = "Android") \/
  (~ occurs_in "Windows" ua /\ ~ occurs_in "Mac" ua /\
   ~ occurs_in "Linux" ua /\ ~ occurs_in "Android" ua /\
   occurs_in "iOS" ua /\ o = "iOS") \/
  (~ occurs_in "Windows" ua /\ ~ occurs_in "Mac" ua /\
   ~ occurs_in "Linux" ua /\ ~ occurs_in "Android" ua /\
   ~ occurs_in "iOS" ua /\ o = "Unknown").

(** A request that failed, in the three ways the specification lists:
    network error, body that is not JSON, status outside 200-299. *)
Definition request_failed (net : fetch_outcome) : Prop :=
  match net with
  | Rejected => True
  | Resolved response =>
      responseBody response = NotJSON \/
      ~ (200 <= status response <= 299)
  end.

(** The failures the page does treat as such: the status plays no part. *)
Definition request_rejected (net : fetch_outcome) : Prop :=
  match net with
  | Rejected => True
  | Resolved response => responseBody response = NotJSON
  end.

(** The field [key] is missing from the response, or holds a falsy value. *)
Definition missing_or_falsy (data : value) (key : string) : Prop :=
  match data with
  | VObj m =>
      match m !! key with
      | None => True
      | Some v => truthy v = false
      end
  | _ => True
  end.

(** The field [key] is there and holds the truthy value [v]. *)
Definition present (data : value) (key : string) (v : value) : Prop :=
  match data with
  | VObj m => m !! key = Some v /\ truthy v = true
  | _ => False
  end.

(** Per-field fallback: [out] is the field when it is there and truthy, the
    sentinel otherwise, and in no case [undefined] or [null]. *)
Definition resolves (data : value) (key : string) (sentinel out : value) : Prop :=
  (missing_or_falsy data key -> out = sentinel) /\
  (forall v, present data key v -> out = v) /\
  out <> VUndefined /\ out <> VNull.

End Spec.

(** The transport flag the scorer reads. *)
Definition secureTransport (env : Env.t) : bool :=
  Str.includes "https" (Env.location_protocol env).

(** What the three ambient rows of the table take off together. *)
Definition ambient_deductions (env : Env.t) : Z :=
  Spec.transport_deduction (secureTransport env)
  + Spec.cookie_deduction (Env.nav_cookieEnabled env)
  + Spec.geolocation_deduction (Env.nav_geolocation env).

(** ** Sample inputs *)

Module Sample.

Definition android_chrome : string :=
  "Mozilla/5.0 (Linux; Android 10; K) AppleWebKit/537.36 (KHTML, like Gecko) Chrome/120.0.0.0 Mobile Safari/537.36".

(** A phone on plain http with cookies and geolocation. *)
Definition plain : Env.t :=
  Env.mk android_chrome "Linux armv8l" "en-US" true true "http:" false
         412 915 412 785.

(** A hardened browser on https. *)
Definition hardened : Env.t :=
  Env.mk android_chrome "Linux armv8l" "en-US" false false "https:" false
         412 915 412 785.

Definition withProvider (name : string) : IPInfo := {|
  ip := VStr "203.0.113.7";
  country := VStr "Unknown";
  region := VStr "Unknown";
  city := VStr "Unknown";
  isp := VStr name;
  timezone := VStr "UTC";
  lat := VNum (S754_zero false);
  lon := VNum (S754_zero false)
|}.

(** The provider's answer to a client over its quota: status 429 and a JSON
    body with none of the fields the page reads. *)
Definition rate_limited : fetch_outcome :=
  Resolved (mkResponse 429 (JSON (VObj
    (<["error" := VBool true]> (<["reason" := VStr "RateLimited"]> ∅))))).

(** A success status whose body is the JSON literal [null]. *)
Definition null_body : fetch_outcome :=
  Resolved (mkResponse 200 (JSON VNull)).

(** A response with an address and nothing else. *)
Definition only_ip : value :=
  VObj (<["ip" := VStr "203.0.113.7"]> ∅).

End Sample.

(** ** The rest of the page: colours, badges and the life of a page view *)

Definition getScoreColor (score : Z) : string :=
  if 80 <=? score then "text-emerald-500"
  else if 60 <=? score then "text-amber-500"
  else "text-red-500".

(** The string literals of the union type ['low' | 'medium' | 'high']. *)
Definition levelName (l : SecurityLevel) : string :=
  match l with
  | low => "low"
  | medium => "medium"
  | high => "high"
  end.

(** The [switch] of [getSecurityBadgeColor], with its [default]. *)
Definition getSecurityBadgeColor (level : string) : string :=
  if String.eqb level "high" then "bg-emerald-500 hover:bg-emerald-600"
  else if String.eqb level "medium" then "bg-amber-500 hover:bg-amber-600"
  else if String.eqb level "low" then "bg-red-500 hover:bg-red-600"
  else "bg-gray-500".

(** The text of the "Proxy Detection" badge. *)
Definition proxyDetection (st : State) : string :=
  if String.eqb (levelName (securityLevel st)) "high"
  then "Detected" else "None".

(** What a page view consists of besides its React state: the requests
    that [fetchIPInfo] has issued and that have not settled yet, and the
    toasts shown so far. *)
Record Page : Type := mkPage {
  view : State;
  inflight : nat;
  toasts : list string
}.

Definition initialPage : Page := mkPage initialState 0%nat [].

Definition P (A : Type) : Type := Page -> result A * Page.

#[export] Instance P_ret : MRet P := fun _ a p => (Normal a, p).
#[export] Instance P_bind : MBind P := fun _ _ k c p =>
  match c p with
  | (Normal a, p') => k a p'
  | (Throw e, p') => (Throw e, p')
  end.

(** A routine of the component, run on the state of the page view. *)
Definition onView {A} (c : M A) : P A := fun p =>
  let (r, st) := c (view p) in (r, mkPage st (inflight p) (toasts p)).

(** [fetchIPInfo()] without [await]: the call runs up to its first [await],
    which issues the request and writes nothing; the rest runs when the
    request settles. *)
Definition startFetch : P unit := fun p =>
  (Normal tt, mkPage (view p) (S (inflight p)) (toasts p)).

Definition toast_success (message : string) : P unit := fun p =>
  (Normal tt, mkPage (view p) (inflight p) (toasts p ++ [message])).

(** The effect run once when the component mounts. *)
Definition mount (env : Env.t) : P unit :=
  startFetch;;
  onView (getBrowserInfo env).

Definition refreshData (env : Env.t) : P unit :=
  onView (setLoading true);;
  startFetch;;
  onView (getBrowserInfo env);;
  toast_success "Information refreshed successfully!".

(** A request in flight settles with [net]: the rest of [fetchIPInfo] runs,
    in the environment of that moment. *)
Definition settle (env : Env.t) (net : fetch_outcome) : P unit := fun p =>
  onView (fetchIPInfo env net)
         (mkPage (view p) (Nat.pred (inflight p)) (toasts p)).

(** What can happen to a mounted page: the visitor clicks "Refresh Data",
    or a request settles. *)
Inductive event : Type :=
  | Click (env : Env.t)
  | Settle (env : Env.t) (net : fetch_outcome).

(** The button is part of the dashboard, which is rendered only when
    [loading] is false; a request can settle only while one is in flight. *)
Definition enabled (ev : event) (p : Page) : bool :=
  match ev with
  | Click _ => negb (loading (view p))
  | Settle _ _ => negb (Nat.eqb (inflight p) 0)
  end.

Definition fire (ev : event) : P unit :=
  match ev with
  | Click env => refreshData env
  | Settle env net => settle env net
  end.

(** Plays a sequence of events; [None] when an event cannot happen in the
    state it meets, or a handler throws. *)
Fixpoint play (evs : list event) (p : Page) : option Page :=
  match evs with
  | [] => Some p
  | ev :: evs' =>
      if enabled ev p then
        match fire ev p with
        | (Normal _, p') => play evs' p'
        | (Throw _, _) => None
        end
      else None
  end.

(** A page view from its mount on. *)
Definition visit (env : Env.t) (evs : list event) : option Page :=
  match mount env initialPage with
  | (Normal _, p) => play evs p
  | (Throw _, _) => None
  end.

Definition clicks (evs : list event) : nat :=
  List.length (List.filter (fun ev => match ev with Click _ => true | _ => false end) evs).

(** What holds of a page view at every moment: at most one request is in
    flight, the spinner is up exactly while one is, the browser record is
    there, and once the dashboard is shown it shows a record with a string
    provider name beside the level of that name and a score from 40 to
    100. *)
Definition page_ok (p : Page) : Prop :=
  (inflight p <= 1)%nat /\
  (loading (view p) = true <-> inflight p = 1%nat) /\
  browserInfo (view p) <> None /\
  (loading (view p) = false ->
   exists r name d,
     ipInfo (view p) = Some r /\
     isp r = VStr name /\
     Spec.provider_row name d (securityLevel (view p)) /\
     40 <= privacyScore (view p) <= 100).


(** ** Facts about the string searches *)

Section StringFacts.

Local Open Scope string_scope.
#[local] Arguments String.append !_ _ / : simpl nomatch.

Example toLowerCase_provider :
  Str.toLowerCase "ACME Residential Broadband" = "acme residential broadband".
Proof. reflexivity. Qed.

Example includes_is_case_sensitive :
  Str.includes "google" "Google LLC" = false /\
  Str.includes "google" (Str.toLowerCase "Google LLC") = true.
Proof. split; reflexivity. Qed.

Example matchDigitsAfter_leftmost :
  Str.matchDigitsAfter "Chrome/" "Chrome/x Chrome/12a Chrome/9" = Some "12".
Proof. reflexivity. Qed.

Example matchDigitsAfter_safari :
  orUnknown (Str.matchDigitsAfter "Version/" "Version/17.4 Safari/605.1.15")
    = "17" /\
  orUnknown (Str.matchDigitsAfter "Version/" "Safari/605.1.15") = "Unknown".
Proof. split; reflexivity. Qed.

Lemma append_empty_r (s : string) : s ++ "" = s.
Proof. induction s as [|c s IH]; simpl; [reflexivity | now rewrite IH]. Qed.

Lemma append_assoc (a b c : string) : (a ++ b) ++ c = a ++ b ++ c.
Proof. induction a as [|x a IH]; simpl; [reflexivity | now rewrite IH]. Qed.

Lemma startsWith_append (p rest : string) :
  Str.startsWith p (p ++ rest) = true.
Proof.
  induction p as [|a p IH]; simpl; [reflexivity|].
  now rewrite Ascii.eqb_refl.
Qed.

Lemma dropPrefix_append (p rest : string) :
  Str.dropPrefix p (p ++ rest) = rest.
Proof.
  induction p as [|a p IH]; simpl; [now destruct rest | exact IH].
Qed.

Lemma startsWith_split (p s : string) :
  Str.startsWith p s = true -> s = p ++ Str.dropPrefix p s.
Proof.
  revert s; induction p as [|a p IH]; intros [|b s]; simpl; try easy.
  destruct (Ascii.eqb_spec a b) as [->|]; [|easy].
  intros H. now rewrite <- (IH s H).
Qed.

Lemma includes_unfold (needle s : string) :
  Str.includes needle s =
  Str.startsWith needle s ||
  match s with
  | EmptyString => false
  | String _ s' => Str.includes needle s'
  end.
Proof. now destruct s. Qed.

Lemma includes_occurs (needle s : string) :
  Str.includes needle s = true <-> Spec.occurs_in needle s.
Proof.
  split.
  - induction s as [|c s IH]; rewrite includes_unfold;
      intros [H|H]%orb_true_iff; try discriminate.
    + exists "", (Str.dropPrefix needle ""). now apply startsWith_split.
    + exists "", (Str.dropPrefix needle (String c s)).
      now apply startsWith_split.
    + destruct (IH H) as (pre & post & ->).
      now exists (String c pre), post.
  - intros (pre & post & ->).
    induction pre as [|c pre IH]; rewrite includes_unfold; simpl.
    + now rewrite startsWith_append.
    + rewrite IH. apply orb_true_r.
Qed.

Lemma includes_false (needle s : string) :
  Str.includes needle s = false <-> ~ Spec.occurs_in needle s.
Proof.
  rewrite <- includes_occurs. now destruct (Str.includes needle s).
Qed.

Lemma toLowerCase_append (a b : string) :
  Str.toLowerCase (a ++ b) = Str.toLowerCase a ++ Str.toLowerCase b.
Proof. induction a as [|c a IH]; simpl; [reflexivity | now rewrite IH]. Qed.

Lemma toLowerCase_split (s a b : string) :
  Str.toLowerCase s = a ++ b ->
  exists a' b', s = a' ++ b' /\ Str.toLowerCase a' = a /\ Str.toLowerCase b' = b.
Proof.
  revert s; induction a as [|c a IH]; intros s H.
  - now exists "", s.
  - destruct s as [|c' s]; simpl in H; [discriminate|].
    injection H as Hc Hs.
    destruct (IH s Hs) as (a' & b' & -> & Ha & Hb).
    exists (String c' a'), b'. simpl. now rewrite Hc, Ha.
Qed.

(** Searching the lower-cased string for a lower-case needle is searching
    the string itself without regard to case. *)
Lemma includes_toLowerCase (needle s : string) :
  Str.toLowerCase needle = needle ->
  Str.includes needle (Str.toLowerCase s) = true <-> Spec.occurs_ci needle s.
Proof.
  intros Hn. rewrite includes_occurs. split.
  - intros (pre & post & H).
    apply toLowerCase_split in H as (pre' & r & -> & _ & H).
    apply toLowerCase_split in H as (w & post' & -> & Hw & _).
    exists w. split; [|now exists pre', post'].
    unfold Spec.same_up_to_case. now rewrite Hn.
  - intros (w & Hw & pre & post & ->).
    exists (Str.toLowerCase pre), (Str.toLowerCase post).
    rewrite !toLowerCase_append. unfold Spec.same_up_to_case in Hw.
    now rewrite Hw, Hn.
Qed.

Lemma includes_toLowerCase_false (needle s : string) :
  Str.toLowerCase needle = needle ->
  Str.includes needle (Str.toLowerCase s) = false <-> ~ Spec.occurs_ci needle s.
Proof.
  intros Hn. rewrite <- (includes_toLowerCase needle s Hn).
  now destruct (Str.includes needle (Str.toLowerCase s)).
Qed.

Lemma takeDigits_split (s : string) :
  exists post,
    s = Str.takeDigits s ++ post /\
    Spec.digits (Str.takeDigits s) /\ Spec.no_digit_ahead post.
Proof.
  induction s as [|c s (post & Hs & Hd & Hp)]; simpl.
  - now exists "".
  - destruct (Str.isDigit c) eqn:Hc; simpl.
    + exists post. now rewrite <- Hs.
    + now exists (String c s).
Qed.

Lemma takeDigits_empty (s : string) :
  Str.takeDigits s = "" -> Spec.no_digit_ahead s.
Proof.
  destruct s as [|c s]; simpl; [easy|].
  now destruct (Str.isDigit c).
Qed.

Lemma matchDigitsAfter_unfold (tag s : string) :
  Str.matchDigitsAfter tag s =
  match Str.matchHere tag s with
  | Some d => Some d
  | None =>
      match s with
      | EmptyString => None
      | String _ s' => Str.matchDigitsAfter tag s'
      end
  end.
Proof. now destruct s. Qed.

Lemma matchHere_Some (tag s d : string) :
  Str.matchHere tag s = Some d ->
  exists post,
    s = tag ++ d ++ post /\ d <> "" /\ Spec.digits d /\ Spec.no_digit_ahead post.
Proof.
  unfold Str.matchHere. destruct (Str.startsWith tag s) eqn:Hs; [|discriminate].
  apply startsWith_split in Hs.
  destruct (takeDigits_split (Str.dropPrefix tag s)) as (post & Hr & Hd & Hp).
  destruct (Str.takeDigits (Str.dropPrefix tag s)) as [|c r] eqn:Ht;
    [discriminate|].
  intros [= <-]. exists post. rewrite <- Hr.
  split; [exact Hs | split; [discriminate | split; assumption]].
Qed.

Lemma matchHere_None (tag rest : string) :
  Str.matchHere tag (tag ++ rest) = None -> Spec.no_digit_ahead rest.
Proof.
  unfold Str.matchHere. rewrite startsWith_append, dropPrefix_append.
  intros H. apply takeDigits_empty.
  now destruct (Str.takeDigits rest).
Qed.

Lemma matchDigitsAfter_Some (tag s d : string) :
  Str.matchDigitsAfter tag s = Some d -> Spec.extracts tag s d.
Proof.
  revert d; induction s as [|c s IH]; intros d;
    rewrite matchDigitsAfter_unfold.
  - destruct (Str.matchHere tag "") as [d'|] eqn:Hh; [|discriminate].
    intros [= <-]. apply matchHere_Some in Hh as (post & Hs & Hne & Hd & Hp).
    exists "", post. repeat split; try assumption.
    intros pre' rest _ Hl. simpl in Hl. lia.
  - destruct (Str.matchHere tag (String c s)) as [d'|] eqn:Hh.
    + intros [= <-]. apply matchHere_Some in Hh as (post & Hs & Hne & Hd & Hp).
      exists "", post. repeat split; try assumption.
      intros pre' rest _ Hl. simpl in Hl. lia.
    + intros H. destruct (IH d H) as (pre & post & Hs & Hne & Hd & Hp & Hleft).
      exists (String c pre), post. repeat split; try assumption.
      * simpl. now rewrite <- Hs.
      * intros [|c' pre'] rest Hs' Hl.
        -- simpl in Hs'. rewrite Hs' in Hh. now apply matchHere_None in Hh.
        -- simpl in Hs'. injection Hs' as _ Hs'.
           apply (Hleft pre' rest Hs'). simpl in Hl. lia.
Qed.

Lemma matchDigitsAfter_None (tag s : string) :
  Str.matchDigitsAfter tag s = None -> Spec.no_match tag s.
Proof.
  induction s as [|c s IH]; rewrite matchDigitsAfter_unfold.
  - destruct (Str.matchHere tag "") eqn:Hh; [discriminate|].
    intros _ [|c' pre] rest Hs; [|now simpl in Hs].
    simpl in Hs. rewrite Hs in Hh. now apply matchHere_None in Hh.
  - destruct (Str.matchHere tag (String c s)) eqn:Hh; [discriminate|].
    intros H [|c' pre] rest Hs.
    + simpl in Hs. rewrite Hs in Hh. now apply matchHere_None in Hh.
    + simpl in Hs. injection Hs as _ Hs. now apply (IH H pre rest).
Qed.

Lemma orUnknown_version (tag s : string) :
  Spec.version_of tag s (orUnknown (Str.matchDigitsAfter tag s)).
Proof.
  destruct (Str.matchDigitsAfter tag s) as [d|] eqn:Hm.
  - left. pose proof (matchDigitsAfter_Some _ _ _ Hm) as He.
    destruct d as [|c d]; [|exact He].
    now destruct He as (_ & _ & _ & Hne & _).
  - right. split; [now apply matchDigitsAfter_None | reflexivity].
Qed.

End StringFacts.

(** ** The privacy scorer *)

(** Runs the monad's plumbing, down to the tests on the inputs. *)
Ltac run_M :=
  cbv beta iota zeta delta
    [mbind M_bind result_bind mret M_ret result_ret lift toLowerCase
     setSecurityLevel setPrivacyScore setIpInfo setLoading setBrowserInfo
     console_error try_catch_finally].

(** Settles an equation on final states by trying every value of the three
    ambient flags. *)
Ltac by_flags env :=
  destruct (Str.includes "https" (Env.location_protocol env)),
    (Env.nav_cookieEnabled env), (Env.nav_geolocation env);
  reflexivity.

Section Scorer.

Variable env : Env.t.

Lemma ambient_deductions_range : 0 <= ambient_deductions env <= 45.
Proof.
  unfold ambient_deductions, Spec.transport_deduction, Spec.cookie_deduction,
    Spec.geolocation_deduction.
  destruct (secureTransport env), (Env.nav_cookieEnabled env),
    (Env.nav_geolocation env); lia.
Qed.

(** One run of the scorer on a record whose provider name is a string: it
    returns normally, writes the level and the score, and leaves the other
    slots alone. *)
Lemma calculatePrivacyScore_run (ipData : IPInfo) (name : string) (st : State) :
  isp ipData = VStr name ->
  exists d lvl,
    Spec.provider_row name d lvl /\
    calculatePrivacyScore env ipData st =
      (Normal tt,
       mkState (ipInfo st) (browserInfo st) (loading st)
               (100 - ambient_deductions env - d) lvl (console st)).
Proof.
  intros Hisp.
  pose proof (includes_toLowerCase "google" name eq_refl) as Hg.
  pose proof (includes_toLowerCase "cloudflare" name eq_refl) as Hc.
  pose proof (includes_toLowerCase "residential" name eq_refl) as Hr.
  unfold calculatePrivacyScore, ambient_deductions, secureTransport.
  rewrite Hisp. run_M.
  destruct (Str.includes "google" (Str.toLowerCase name)) eqn:Eg.
  { exists 5, high. split.
    - left. split; [left; now apply Hg | easy].
    - by_flags env. }
  destruct (Str.includes "cloudflare" (Str.toLowerCase name)) eqn:Ec.
  { exists 5, high. split.
    - left. split; [right; now apply Hc | easy].
    - by_flags env. }
  assert (~ Spec.google_or_cloudflare name) as Hno.
  { intros [H|H]; [apply Hg in H | apply Hc in H]; discriminate. }
  destruct (Str.includes "residential" (Str.toLowerCase name)) eqn:Er.
  - exists 15, low. split.
    + right; left. split; [exact Hno | split; [now apply Hr | easy]].
    + by_flags env.
  - exists 0, medium. split.
    + right; right. split; [exact Hno | split; [|easy]].
      intros H. apply Hr in H. discriminate.
    + by_flags env.
Qed.

Lemma provider_row_range (name : string) (d : Z) (lvl : SecurityLevel) :
  Spec.provider_row name d lvl -> 0 <= d <= 15.
Proof. intros [(_ & -> & _)|[(_ & _ & -> & _)|(_ & _ & -> & _)]]; lia. Qed.

Lemma provider_row_fun (name : string) d1 l1 d2 l2 :
  Spec.provider_row name d1 l1 -> Spec.provider_row name d2 l2 ->
  d1 = d2 /\ l1 = l2.
Proof.
  intros [(G1 & -> & ->)|[(G1 & R1 & -> & ->)|(G1 & R1 & -> & ->)]]
         [(G2 & -> & ->)|[(G2 & R2 & -> & ->)|(G2 & R2 & -> & ->)]];
    try easy.
Qed.

(** C1. The scorer starts from 100 and takes off, cumulatively, 20 for an
    insecure transport, 10 for cookies, 15 for geolocation, and 5 for a
    provider name containing "google" or "cloudflare" without regard to
    case, else 15 for one containing "residential".  With an insecure
    transport, cookies, geolocation and the provider name
    "ACME Residential Broadband" the score is 40 and the level low; with a
    secure transport, no cookies, no geolocation and "Cloudflare, Inc." the
    score is 95 and the level high. *)
Theorem privacy_score_deduction_table
    (ipData : IPInfo) (name : string) (st : State) :
  isp ipData = VStr name ->
  let out := calculatePrivacyScore env ipData st in
  fst out = Normal tt /\
  (exists d,
     Spec.provider_row name d (securityLevel (snd out)) /\
     privacyScore (snd out) =
       100 - Spec.transport_deduction (secureTransport env)
           - Spec.cookie_deduction (Env.nav_cookieEnabled env)
           - Spec.geolocation_deduction (Env.nav_geolocation env)
           - d) /\
  (secureTransport env = false -> Env.nav_cookieEnabled env = true ->
   Env.nav_geolocation env = true -> name = "ACME Residential Broadband" ->
   privacyScore (snd out) = 40 /\ securityLevel (snd out) = low) /\
  (secureTransport env = true -> Env.nav_cookieEnabled env = false ->
   Env.nav_geolocation env = false -> name = "Cloudflare, Inc." ->
   privacyScore (snd out) = 95 /\ securityLevel (snd out) = high).
Proof.
  intros Hisp out.
  destruct (calculatePrivacyScore_run ipData name st Hisp)
    as (d & lvl & Hrow & Hrun).
  subst out. rewrite Hrun. cbn [fst snd privacyScore securityLevel].
  split; [reflexivity|]. split.
  { exists d. split; [exact Hrow|]. unfold ambient_deductions. lia. }
  unfold ambient_deductions. split.
  - intros -> -> -> ->.
    assert (Spec.provider_row "ACME Residential Broadband" 15 low) as Hrow'.
    { right; left. split; [|split; [|easy]].
      - intros [H|H];
          [apply (includes_toLowerCase "google" _ eq_refl) in H
          |apply (includes_toLowerCase "cloudflare" _ eq_refl) in H];
          discriminate.
      - now apply (includes_toLowerCase "residential" _ eq_refl). }
    destruct (provider_row_fun _ _ _ _ _ Hrow Hrow') as [-> ->].
    now split.
  - intros -> -> -> ->.
    assert (Spec.provider_row "Cloudflare, Inc." 5 high) as Hrow'.
    { left. split; [|easy]. right.
      now apply (includes_toLowerCase "cloudflare" _ eq_refl). }
    destruct (provider_row_fun _ _ _ _ _ Hrow Hrow') as [-> ->].
    now split.
Qed.

(** C3. The score the scorer writes is an integer between 0 and 100. *)
Theorem score_in_range (ipData : IPInfo) (name : string) (st : State) :
  isp ipData = VStr name ->
  let out := calculatePrivacyScore env ipData st in
  fst out = Normal tt /\ 0 <= privacyScore (snd out) <= 100.
Proof.
  intros Hisp out.
  destruct (calculatePrivacyScore_run ipData name st Hisp)
    as (d & lvl & Hrow & Hrun).
  subst out. rewrite Hrun. cbn [fst snd privacyScore].
  pose proof ambient_deductions_range.
  pose proof (provider_row_range _ _ _ Hrow).
  split; [reflexivity | lia].
Qed.

(** C9. The score is never below 40: the provider rows exclude each other,
    so at most 20+10+15+15 = 60 is taken off, and the floor at 0 never
    applies. *)
Theorem score_at_least_40 (ipData : IPInfo) (name : string) (st : State) :
  isp ipData = VStr name ->
  let out := calculatePrivacyScore env ipData st in
  fst out = Normal tt /\
  40 <= privacyScore (snd out) /\
  exists d lvl,
    Spec.provider_row name d lvl /\
    ambient_deductions env + d <= 60 /\
    Z.max (100 - (ambient_deductions env + d)) 0 =
      100 - (ambient_deductions env + d) /\
    privacyScore (snd out) = 100 - (ambient_deductions env + d).
Proof.
  intros Hisp out.
  destruct (calculatePrivacyScore_run ipData name st Hisp)
    as (d & lvl & Hrow & Hrun).
  subst out. rewrite Hrun. cbn [fst snd privacyScore].
  pose proof ambient_deductions_range.
  pose proof (provider_row_range _ _ _ Hrow).
  split; [reflexivity|]. split; [lia|].
  exists d, lvl. repeat split; try assumption; lia.
Qed.

End Scorer.

(** C2. The level the scorer writes depends on the provider name alone:
    high when it contains "google" or "cloudflare" (case-insensitive), else
    low when it contains "residential", else medium.  Transport, cookies
    and geolocation never change it, and a name matching both tests gets
    high and the deduction of 5 only. *)
Theorem level_determined_by_provider_name
    (env : Env.t) (ipData : IPInfo) (name : string) (st : State) :
  isp ipData = VStr name ->
  let out := calculatePrivacyScore env ipData st in
  fst out = Normal tt /\
  (Spec.google_or_cloudflare name ->
   securityLevel (snd out) = high /\
   privacyScore (snd out) = 100 - ambient_deductions env - 5) /\
  (~ Spec.google_or_cloudflare name -> Spec.occurs_ci "residential" name ->
   securityLevel (snd out) = low) /\
  (~ Spec.google_or_cloudflare name -> ~ Spec.occurs_ci "residential" name ->
   securityLevel (snd out) = medium) /\
  (forall (env' : Env.t) (ipData' : IPInfo) (st' : State),
     isp ipData' = VStr name ->
     securityLevel (snd (calculatePrivacyScore env' ipData' st')) =
     securityLevel (snd out)).
Proof.
  intros Hisp out.
  destruct (calculatePrivacyScore_run env ipData name st Hisp)
    as (d & lvl & Hrow & Hrun).
  subst out. rewrite Hrun. cbn [fst snd privacyScore securityLevel].
  split; [reflexivity|].
  repeat split.
  - destruct Hrow as [(_ & _ & ->)|[(G & _)|(G & _)]]; easy.
  - destruct Hrow as [(_ & -> & _)|[(G & _)|(G & _)]]; easy.
  - intros G R. destruct Hrow as [(G' & _)|[(_ & _ & _ & ->)|(_ & R' & _)]]; easy.
  - intros G R. destruct Hrow as [(G' & _)|[(_ & R' & _)|(_ & _ & _ & ->)]]; easy.
  - intros env' ipData' st' Hisp'.
    destruct (calculatePrivacyScore_run env' ipData' name st' Hisp')
      as (d' & lvl' & Hrow' & ->).
    cbn [snd securityLevel].
    now destruct (provider_row_fun _ _ _ _ _ Hrow Hrow').
Qed.

(** C8. The scorer is deterministic in its inputs: two runs on the same
    record in environments that agree on transport security, the cookie
    flag and the geolocation capability write the same score and the same
    level, whatever else differs in the environment or in the page's
    state. *)
Theorem scorer_deterministic
    (env1 env2 : Env.t) (ipData : IPInfo) (name : string) (st1 st2 : State) :
  isp ipData = VStr name ->
  secureTransport env1 = secureTransport env2 ->
  Env.nav_cookieEnabled env1 = Env.nav_cookieEnabled env2 ->
  Env.nav_geolocation env1 = Env.nav_geolocation env2 ->
  let out1 := calculatePrivacyScore env1 ipData st1 in
  let out2 := calculatePrivacyScore env2 ipData st2 in
  fst out1 = Normal tt /\ fst out2 = Normal tt /\
  privacyScore (snd out1) = privacyScore (snd out2) /\
  securityLevel (snd out1) = securityLevel (snd out2).
Proof.
  intros Hisp Ht Hc Hg out1 out2. subst out1 out2.
  destruct (calculatePrivacyScore_run env1 ipData name st1 Hisp)
    as (d1 & l1 & Hrow1 & ->).
  destruct (calculatePrivacyScore_run env2 ipData name st2 Hisp)
    as (d2 & l2 & Hrow2 & ->).
  destruct (provider_row_fun _ _ _ _ _ Hrow1 Hrow2) as [-> ->].
  cbn [fst snd privacyScore securityLevel]. unfold ambient_deductions.
  now rewrite Ht, Hc, Hg.
Qed.

(** *** The scorer's theorems at sample inputs *)

Lemma privacy_score_deduction_table_witness :
  (isp (Sample.withProvider "ACME Residential Broadband")
     = VStr "ACME Residential Broadband" /\
   secureTransport Sample.plain = false /\
   Env.nav_cookieEnabled Sample.plain = true /\
   Env.nav_geolocation Sample.plain = true /\
   let out := calculatePrivacyScore Sample.plain
                (Sample.withProvider "ACME Residential Broadband")
                initialState in
   privacyScore (snd out) = 40 /\ securityLevel (snd out) = low) /\
  (isp (Sample.withProvider "Cloudflare, Inc.") = VStr "Cloudflare, Inc." /\
   secureTransport Sample.hardened = true /\
   Env.nav_cookieEnabled Sample.hardened = false /\
   Env.nav_geolocation Sample.hardened = false /\
   let out := calculatePrivacyScore Sample.hardened
                (Sample.withProvider "Cloudflare, Inc.") initialState in
   privacyScore (snd out) = 95 /\ securityLevel (snd out) = high).
Proof.
  split.
  - repeat (split; [reflexivity|]).
    apply (privacy_score_deduction_table Sample.plain
             (Sample.withProvider "ACME Residential Broadband")
             "ACME Residential Broadband" initialState eq_refl);
      reflexivity.
  - repeat (split; [reflexivity|]).
    apply (privacy_score_deduction_table Sample.hardened
             (Sample.withProvider "Cloudflare, Inc.")
             "Cloudflare, Inc." initialState eq_refl);
      reflexivity.
Defined.

Lemma level_determined_by_provider_name_witness :
  isp (Sample.withProvider "Google Cloudflare Residential")
    = VStr "Google Cloudflare Residential" /\
  Spec.google_or_cloudflare "Google Cloudflare Residential" /\
  let out := calculatePrivacyScore Sample.plain
               (Sample.withProvider "Google Cloudflare Residential")
               initialState in
  securityLevel (snd out) = high /\ privacyScore (snd out) = 50.
Proof.
  assert (Spec.google_or_cloudflare "Google Cloudflare Residential") as G.
  { left. exists "Google". split; [reflexivity|].
    now exists "", " Cloudflare Residential". }
  split; [reflexivity|]. split; [exact G|].
  apply (level_determined_by_provider_name Sample.plain
           (Sample.withProvider "Google Cloudflare Residential")
           "Google Cloudflare Residential" initialState eq_refl).
  exact G.
Defined.

Lemma score_in_range_witness :
  isp fallbackData = VStr "Demo ISP" /\
  let out := calculatePrivacyScore Sample.plain fallbackData initialState in
  fst out = Normal tt /\ 0 <= privacyScore (snd out) <= 100.
Proof.
  split; [reflexivity|].
  apply (score_in_range Sample.plain fallbackData "Demo ISP" initialState).
  reflexivity.
Defined.

Lemma score_at_least_40_witness :
  isp (Sample.withProvider "ACME Residential Broadband")
    = VStr "ACME Residential Broadband" /\
  40 <= privacyScore
          (snd (calculatePrivacyScore Sample.plain
                  (Sample.withProvider "ACME Residential Broadband")
                  initialState)).
Proof.
  split; [reflexivity|].
  apply (score_at_least_40 Sample.plain
           (Sample.withProvider "ACME Residential Broadband")
           "ACME Residential Broadband" initialState).
  reflexivity.
Defined.

Lemma scorer_deterministic_witness :
  let st2 := mkState (Some fallbackData) None false 77 high [TypeError] in
  let env2 := Env.mk "curl/8.5.0" "Win32" "de" true true "file:" true
                     1920 1080 1280 720 in
  isp (Sample.withProvider "Comcast Cable") = VStr "Comcast Cable" /\
  secureTransport Sample.plain = secureTransport env2 /\
  Env.nav_cookieEnabled Sample.plain = Env.nav_cookieEnabled env2 /\
  Env.nav_geolocation Sample.plain = Env.nav_geolocation env2 /\
  privacyScore (snd (calculatePrivacyScore Sample.plain
                       (Sample.withProvider "Comcast Cable") initialState)) =
  privacyScore (snd (calculatePrivacyScore env2
                       (Sample.withProvider "Comcast Cable") st2)).
Proof.
  intros st2 env2. repeat (split; [reflexivity|]).
  apply (scorer_deterministic Sample.plain env2
           (Sample.withProvider "Comcast Cable") "Comcast Cable"
           initialState st2); reflexivity.
Defined.

(** ** The network fetcher *)

(** The scorer either returns normally, having touched the score and the
    level only, or throws before writing anything. *)
Lemma calculatePrivacyScore_cases (env : Env.t) (ipData : IPInfo) (st : State) :
  (exists n lvl,
     calculatePrivacyScore env ipData st =
       (Normal tt,
        mkState (ipInfo st) (browserInfo st) (loading st) n lvl (console st)))
  \/ calculatePrivacyScore env ipData st = (Throw TypeError, st).
Proof.
  destruct (isp ipData) eqn:Hisp;
    try (right; unfold calculatePrivacyScore; rewrite Hisp; reflexivity).
  left. destruct (calculatePrivacyScore_run env ipData s st Hisp)
    as (d & lvl & _ & ->).
  now exists (100 - ambient_deductions env - d), lvl.
Qed.

(** The [catch] block: it logs, stores the fallback record, scores it, and
    never throws. *)
Lemma handler_run (env : Env.t) (e : error) (st : State) :
  exists n lvl,
    (console_error e;;
     setIpInfo fallbackData;;
     calculatePrivacyScore env fallbackData) st =
      (Normal tt,
       mkState (Some fallbackData) (browserInfo st) (loading st) n lvl
               (console st ++ [e])).
Proof.
  run_M.
  match goal with
  | |- context [calculatePrivacyScore env fallbackData ?s] =>
      destruct (calculatePrivacyScore_run env fallbackData "Demo ISP" s eq_refl)
        as (d & lvl & _ & ->)
  end.
  now exists (100 - ambient_deductions env - d), lvl.
Qed.

(** The [try] block. *)
Lemma body_run (env : Env.t) (net : fetch_outcome) (st : State) :
  let body :=
    (response ← lift (fetch net);
     data ← lift (json response);
     formattedData ← lift (formattedData data);
     setIpInfo formattedData;;
     calculatePrivacyScore env formattedData) in
  match net with
  | Rejected => body st = (Throw NetworkError, st)
  | Resolved response =>
      match responseBody response with
      | NotJSON => body st = (Throw SyntaxError, st)
      | JSON data =>
          match formattedData data with
          | Throw e => body st = (Throw e, st)
          | Normal r =>
              (exists n lvl,
                 body st =
                   (Normal tt,
                    mkState (Some r) (browserInfo st) (loading st) n lvl
                            (console st)))
              \/ body st =
                   (Throw TypeError,
                    mkState (Some r) (browserInfo st) (loading st)
                            (privacyScore st) (securityLevel st) (console st))
          end
      end
  end.
Proof.
  intros body. subst body. destruct net as [|response]; [reflexivity|].
  unfold json. run_M. cbn [fetch].
  destruct (responseBody response) as [|data]; [reflexivity|].
  destruct (formattedData data) as [r|e]; [|reflexivity].
  match goal with
  | |- context [calculatePrivacyScore env r ?s] =>
      destruct (calculatePrivacyScore_cases env r s) as [(n & lvl & ->)| ->]
  end.
  - left. now exists n, lvl.
  - now right.
Qed.

(** Where the fetcher ends: always normally, with a record stored and the
    loading flag cleared; the stored record is the fallback whenever the
    [try] block threw. *)
Lemma fetchIPInfo_run (env : Env.t) (net : fetch_outcome) (st : State) :
  exists r n lvl log,
    fetchIPInfo env net st =
      (Normal tt, mkState (Some r) (browserInfo st) false n lvl log) /\
    match net with
    | Rejected => r = fallbackData /\ log = (console st ++ [NetworkError])%list
    | Resolved response =>
        match responseBody response with
        | NotJSON => r = fallbackData /\ log = (console st ++ [SyntaxError])%list
        | JSON data =>
            match formattedData data with
            | Throw e => r = fallbackData /\ log = (console st ++ [e])%list
            | Normal fd =>
                (r = fd /\ log = console st) \/
                (r = fallbackData /\ log = (console st ++ [TypeError])%list)
            end
        end
    end.
Proof.
  pose proof (body_run env net st) as Hb. cbv zeta in Hb.
  unfold fetchIPInfo, try_catch_finally.
  destruct net as [|response].
  - rewrite Hb.
    destruct (handler_run env NetworkError st) as (n & lvl & ->).
    now exists fallbackData, n, lvl, (console st ++ [NetworkError])%list.
  - destruct (responseBody response) as [|data].
    + rewrite Hb.
      destruct (handler_run env SyntaxError st) as (n & lvl & ->).
      now exists fallbackData, n, lvl, (console st ++ [SyntaxError])%list.
    + destruct (formattedData data) as [fd|e].
      * destruct Hb as [(n & lvl & ->)| ->].
        -- exists fd, n, lvl, (console st). split; [reflexivity | now left].
        -- match goal with
           | |- context [mbind _ (console_error TypeError) ?s] =>
               destruct (handler_run env TypeError s) as (n & lvl & ->)
           end.
           exists fallbackData, n, lvl, (console st ++ [TypeError])%list.
           split; [reflexivity | now right].
      * rewrite Hb.
        destruct (handler_run env e st) as (n & lvl & ->).
        now exists fallbackData, n, lvl, (console st ++ [e])%list.
Qed.

(** C4, as the page has it.  The fetcher never fails outward: it always
    returns normally with a record stored and the loading flag cleared.
    When the request is rejected or the body is not JSON, whatever the
    status, the record stored is exactly the fixed fallback record.  The
    status itself is never looked at: a response is handled by its body
    alone. *)
Theorem fetchIPInfo_never_fails
    (env : Env.t) (net : fetch_outcome) (st : State) :
  let out := fetchIPInfo env net st in
  fst out = Normal tt /\
  loading (snd out) = false /\
  (exists r, ipInfo (snd out) = Some r) /\
  (Spec.request_rejected net -> ipInfo (snd out) = Some fallbackData) /\
  (forall (response : Response) (status' : Z),
     net = Resolved response ->
     fetchIPInfo env (Resolved (mkResponse status' (responseBody response))) st
     = out).
Proof.
  intros out. subst out.
  destruct (fetchIPInfo_run env net st) as (r & n & lvl & log & Hrun & Hcase).
  rewrite Hrun. cbn [fst snd loading ipInfo].
  split; [reflexivity|]. split; [reflexivity|]. split; [now exists r|]. split.
  - destruct net as [|response]; cbn [Spec.request_rejected].
    + now destruct Hcase as [-> _].
    + intros Hbody. rewrite Hbody in Hcase. now destruct Hcase as [-> _].
  - intros response status' ->. rewrite <- Hrun. reflexivity.
Qed.

Lemma fetchIPInfo_never_fails_witness :
  let net := Resolved (mkResponse 502 NotJSON) in
  Spec.request_rejected net /\
  ipInfo (snd (fetchIPInfo Sample.plain net initialState)) = Some fallbackData.
Proof.
  intros net. split; [reflexivity|].
  apply (fetchIPInfo_never_fails Sample.plain net initialState).
  reflexivity.
Defined.

(** C4 as stated fails: a response with status 429 and a JSON body is not
    replaced by the fallback record; its body is mapped field by field. *)
Lemma non_success_status_is_not_fallback :
  Spec.request_failed Sample.rate_limited /\
  ipInfo (snd (fetchIPInfo Sample.plain Sample.rate_limited initialState))
    <> Some fallbackData.
Proof.
  split.
  - right. cbn. lia.
  - vm_compute. discriminate.
Qed.

(** The mapping keeps a truthy field and replaces any other by the
    sentinel. *)
Lemma or_else_resolves (data : value) (key : string) (sentinel v : value) :
  sentinel <> VUndefined -> sentinel <> VNull ->
  getProp data key = Normal v ->
  Spec.resolves data key sentinel (or_else v sentinel).
Proof.
  intros Hu Hn Hget. unfold Spec.resolves, or_else.
  destruct data as [| |b|x|s|l|m]; try discriminate;
    cbn in Hget; injection Hget as <-;
    cbn [Spec.missing_or_falsy Spec.present truthy];
    try (split; [easy | split; [now intros v' [] | easy]]).
  destruct (m !! key) as [v|] eqn:Hm; cbn [default from_option id].
  - destruct (truthy v) eqn:Hv.
    + split; [congruence|].
      split; [intros v' [[= <-] _]; reflexivity|].
      split; intros ->; discriminate.
    + split; [reflexivity|].
      split; [intros v' [[= <-] Hv']; congruence|].
      now split.
  - cbn [truthy]. split; [reflexivity|].
    split; [intros v' [[=] _] | now split].
Qed.

(** C5, as the page has it.  For every parsed response other than [null]
    the mapping returns a record, and each field is resolved on its own:
    a field that is missing or falsy becomes "Unknown" (0 for latitude and
    longitude), a truthy one is kept, and none is [undefined] or [null]. *)
Theorem formattedData_per_field (data : value) :
  data <> VNull -> data <> VUndefined ->
  exists r,
    formattedData data = Normal r /\
    Spec.resolves data "ip" (VStr "Unknown") (ip r) /\
    Spec.resolves data "country_name" (VStr "Unknown") (country r) /\
    Spec.resolves data "region" (VStr "Unknown") (region r) /\
    Spec.resolves data "city" (VStr "Unknown") (city r) /\
    Spec.resolves data "org" (VStr "Unknown") (isp r) /\
    Spec.resolves data "timezone" (VStr "Unknown") (timezone r) /\
    Spec.resolves data "latitude" (VNum (S754_zero false)) (lat r) /\
    Spec.resolves data "longitude" (VNum (S754_zero false)) (lon r).
Proof.
  intros Hnull Hundef.
  assert (forall key, exists v, getProp data key = Normal v) as Hget.
  { intros key. destruct data; try easy; now eexists. }
  unfold formattedData.
  destruct (Hget "ip") as (v1 & H1), (Hget "country_name") as (v2 & H2),
    (Hget "region") as (v3 & H3), (Hget "city") as (v4 & H4),
    (Hget "org") as (v5 & H5), (Hget "timezone") as (v6 & H6),
    (Hget "latitude") as (v7 & H7), (Hget "longitude") as (v8 & H8).
  rewrite H1, H2, H3, H4, H5, H6, H7, H8.
  eexists. split; [reflexivity|]. cbn [ip country region city isp timezone lat lon].
  do 7 (split; [now apply or_else_resolves|]).
  now apply or_else_resolves.
Qed.

Lemma formattedData_per_field_witness :
  Sample.only_ip <> VNull /\ Sample.only_ip <> VUndefined /\
  exists r,
    formattedData Sample.only_ip = Normal r /\
    Spec.resolves Sample.only_ip "ip" (VStr "Unknown") (ip r).
Proof.
  split; [discriminate|]. split; [discriminate|].
  destruct (formattedData_per_field Sample.only_ip) as (r & Hr & Hip & _);
    [discriminate | discriminate |].
  exists r. now split.
Defined.

(** C5 as stated fails at the JSON literal [null]: reading its first field
    throws, no record is mapped, and the fetcher stores the fallback
    record, whose address is not the sentinel. *)
Lemma null_response_is_not_mapped :
  Sample.null_body = Resolved (mkResponse 200 (JSON VNull)) /\
  Spec.missing_or_falsy VNull "ip" /\
  (forall r, formattedData VNull <> Normal r) /\
  exists r,
    ipInfo (snd (fetchIPInfo Sample.plain Sample.null_body initialState))
      = Some r /\
    ip r <> VStr "Unknown".
Proof.
  split; [reflexivity|]. split; [exact I|]. split; [discriminate|].
  exists fallbackData. split; [reflexivity | discriminate].
Qed.

(** ** The environment inspector *)

(** Turns each test of the user agent in the goal into a fact about its
    substrings. *)
Ltac test_includes needle ua :=
  let E := fresh "E" in
  destruct (Str.includes needle ua) eqn:E;
  [apply includes_occurs in E | apply includes_false in E].

Lemma detectBrowser_rule (ua : string) :
  Spec.browser_rule ua (fst (detectBrowser ua)) (snd (detectBrowser ua)).
Proof.
  unfold detectBrowser, Spec.browser_rule.
  test_includes "Chrome" ua.
  { left. cbn [fst snd]. auto using orUnknown_version. }
  test_includes "Firefox" ua.
  { right; left. cbn [fst snd]. auto using orUnknown_version. }
  test_includes "Safari" ua.
  { do 2 right; left. cbn [fst snd]. auto 6 using orUnknown_version. }
  test_includes "Edge" ua.
  { do 3 right; left. cbn [fst snd]. auto 7 using orUnknown_version. }
  do 4 right. cbn [fst snd]. auto 7.
Qed.

Lemma detectOS_rule (ua : string) : Spec.os_rule ua (detectOS ua).
Proof.
  unfold detectOS, Spec.os_rule.
  test_includes "Windows" ua; [now left|].
  test_includes "Mac" ua; [now right; left|].
  test_includes "Linux" ua; [now do 2 right; left|].
  test_includes "Android" ua; [now do 3 right; left|].
  test_includes "iOS" ua; [now do 4 right; left|].
  now do 5 right.
Qed.

(** One run of the inspector: it returns normally and stores a record
    holding what the two tests found. *)
Lemma getBrowserInfo_run (env : Env.t) (st : State) :
  exists info,
    getBrowserInfo env st =
      (Normal tt,
       mkState (ipInfo st) (Some info) (loading st) (privacyScore st)
               (securityLevel st) (console st)) /\
    browser info = fst (detectBrowser (Env.nav_userAgent env)) /\
    version info = snd (detectBrowser (Env.nav_userAgent env)) /\
    os info = detectOS (Env.nav_userAgent env).
Proof.
  unfold getBrowserInfo.
  destruct (detectBrowser (Env.nav_userAgent env)) as [b v].
  eexists. split; [reflexivity|]. now cbn.
Qed.

(** C6. Browser detection tests the user agent for "Chrome", "Firefox",
    "Safari" and "Edge" in this order, and the first that occurs decides the
    family; the version is what the family's pattern ("Chrome/<digits>",
    "Firefox/<digits>", "Version/<digits>" for Safari, "Edge/<digits>")
    extracts; with no family both are "Unknown".  A user agent containing
    both "Chrome" and "Safari" is classified as Chrome. *)
Theorem browser_detection_order (env : Env.t) (st : State) :
  exists info,
    getBrowserInfo env st =
      (Normal tt,
       mkState (ipInfo st) (Some info) (loading st) (privacyScore st)
               (securityLevel st) (console st)) /\
    Spec.browser_rule (Env.nav_userAgent env) (browser info) (version info) /\
    (Spec.occurs_in "Chrome" (Env.nav_userAgent env) ->
     Spec.occurs_in "Safari" (Env.nav_userAgent env) ->
     browser info = "Chrome").
Proof.
  destruct (getBrowserInfo_run env st) as (info & Hrun & Hb & Hv & _).
  exists info. split; [exact Hrun|].
  pose proof (detectBrowser_rule (Env.nav_userAgent env)) as Hrule.
  rewrite <- Hb, <- Hv in Hrule. split; [exact Hrule|].
  intros Hc _.
  destruct Hrule as [(_ & -> & _)|[(N & _)|[(N & _)|[(N & _)|(N & _)]]]];
    easy.
Qed.

Lemma browser_detection_order_witness :
  Spec.occurs_in "Chrome" (Env.nav_userAgent Sample.plain) /\
  Spec.occurs_in "Safari" (Env.nav_userAgent Sample.plain) /\
  exists info,
    browserInfo (snd (getBrowserInfo Sample.plain initialState)) = Some info /\
    browser info = "Chrome" /\ version info = "120".
Proof.
  assert (Spec.occurs_in "Chrome" (Env.nav_userAgent Sample.plain)) as Hc
    by now apply includes_occurs.
  assert (Spec.occurs_in "Safari" (Env.nav_userAgent Sample.plain)) as Hs
    by now apply includes_occurs.
  split; [exact Hc|]. split; [exact Hs|].
  destruct (browser_detection_order Sample.plain initialState)
    as (info & Hrun & _ & Hchrome).
  exists info. rewrite Hrun. split; [reflexivity|].
  split; [exact (Hchrome Hc Hs)|].
  now injection Hrun as <-.
Defined.

(** C7. Operating-system detection tests the user agent for "Windows",
    "Mac", "Linux", "Android" and "iOS" in this order, the first that occurs
    decides, and the result is "Unknown" when none of the five occurs. *)
Theorem os_detection_order (env : Env.t) (st : State) :
  exists info,
    getBrowserInfo env st =
      (Normal tt,
       mkState (ipInfo st) (Some info) (loading st) (privacyScore st)
               (securityLevel st) (console st)) /\
    Spec.os_rule (Env.nav_userAgent env) (os info).
Proof.
  destruct (getBrowserInfo_run env st) as (info & Hrun & _ & _ & Ho).
  exists info. split; [exact Hrun|].
  rewrite Ho. apply detectOS_rule.
Qed.

(** C10. A user agent containing "Linux" and "Android" but neither
    "Windows" nor "Mac" is reported as "Linux"; "Android" is reported only
    for a user agent containing "Android" and none of "Windows", "Mac" and
    "Linux". *)
Theorem android_reported_as_linux (env : Env.t) (st : State) :
  exists info,
    getBrowserInfo env st =
      (Normal tt,
       mkState (ipInfo st) (Some info) (loading st) (privacyScore st)
               (securityLevel st) (console st)) /\
    (Spec.occurs_in "Linux" (Env.nav_userAgent env) ->
     Spec.occurs_in "Android" (Env.nav_userAgent env) ->
     ~ Spec.occurs_in "Windows" (Env.nav_userAgent env) ->
     ~ Spec.occurs_in "Mac" (Env.nav_userAgent env) ->
     os info = "Linux") /\
    (os info = "Android" ->
     Spec.occurs_in "Android" (Env.nav_userAgent env) /\
     ~ Spec.occurs_in "Windows" (Env.nav_userAgent env) /\
     ~ Spec.occurs_in "Mac" (Env.nav_userAgent env) /\
     ~ Spec.occurs_in "Linux" (Env.nav_userAgent env)).
Proof.
  destruct (getBrowserInfo_run env st) as (info & Hrun & _ & _ & Ho).
  exists info. split; [exact Hrun|].
  pose proof (detectOS_rule (Env.nav_userAgent env)) as Hrule.
  rewrite <- Ho in Hrule. split.
  - intros Hl Ha Hw Hm.
    destruct Hrule as
      [(W & _)|[(_ & M & _)|[(_ & _ & _ & ->)|[(_ & _ & L & _)|
       [(_ & _ & L & _)|(_ & _ & L & _)]]]]]; easy.
  - intros Hos. rewrite Hos in Hrule.
    destruct Hrule as
      [(_ & E)|[(_ & _ & E)|[(_ & _ & _ & E)|[(W & M & L & A & _)|
       [(_ & _ & _ & _ & _ & E)|(_ & _ & _ & _ & _ & E)]]]]];
      try discriminate E.
    easy.
Qed.

Lemma android_reported_as_linux_witness :
  Spec.occurs_in "Linux" (Env.nav_userAgent Sample.plain) /\
  Spec.occurs_in "Android" (Env.nav_userAgent Sample.plain) /\
  ~ Spec.occurs_in "Windows" (Env.nav_userAgent Sample.plain) /\
  ~ Spec.occurs_in "Mac" (Env.nav_userAgent Sample.plain) /\
  exists info,
    browserInfo (snd (getBrowserInfo Sample.plain initialState)) = Some info /\
    os info = "Linux".
Proof.
  assert (Spec.occurs_in "Linux" (Env.nav_userAgent Sample.plain)) as Hl
    by now apply includes_occurs.
  assert (Spec.occurs_in "Android" (Env.nav_userAgent Sample.plain)) as Ha
    by now apply includes_occurs.
  assert (~ Spec.occurs_in "Windows" (Env.nav_userAgent Sample.plain)) as Hw
    by now apply includes_false.
  assert (~ Spec.occurs_in "Mac" (Env.nav_userAgent Sample.plain)) as Hm
    by now apply includes_false.
  repeat (split; [assumption|]).
  destruct (android_reported_as_linux Sample.plain initialState)
    as (info & Hrun & Hlinux & _).
  exists info. rewrite Hrun. split; [reflexivity|].
  exact (Hlinux Hl Ha Hw Hm).
Defined.

(** ** Further properties of the fetcher and the scorer *)

(** The scorer does the same to every state. *)
Lemma calculatePrivacyScore_uniform (env : Env.t) (ipData : IPInfo) (name : string) :
  isp ipData = VStr name ->
  exists d lvl,
    Spec.provider_row name d lvl /\
    forall st,
      calculatePrivacyScore env ipData st =
        (Normal tt,
         mkState (ipInfo st) (browserInfo st) (loading st)
                 (100 - ambient_deductions env - d) lvl (console st)).
Proof.
  intros Hisp.
  destruct (calculatePrivacyScore_run env ipData name initialState Hisp)
    as (d & lvl & Hrow & _).
  exists d, lvl. split; [exact Hrow|]. intros st.
  destruct (calculatePrivacyScore_run env ipData name st Hisp)
    as (d' & lvl' & Hrow' & ->).
  now destruct (provider_row_fun _ _ _ _ _ Hrow Hrow') as [-> ->].
Qed.

Lemma fallback_row : Spec.provider_row "Demo ISP" 0 medium.
Proof.
  right; right. split; [|split; [|easy]].
  - intros [H|H];
      [apply (includes_toLowerCase "google" _ eq_refl) in H
      |apply (includes_toLowerCase "cloudflare" _ eq_refl) in H];
      discriminate.
  - intros H. apply (includes_toLowerCase "residential" _ eq_refl) in H.
    discriminate.
Qed.


(** The [catch] block, exactly. *)
Lemma handler_exact (env : Env.t) (e : error) (st : State) :
  (console_error e;;
   setIpInfo fallbackData;;
   calculatePrivacyScore env fallbackData) st =
    (Normal tt,
     mkState (Some fallbackData) (browserInfo st) (loading st)
             (100 - ambient_deductions env) medium (console st ++ [e])).
Proof.
  destruct (calculatePrivacyScore_uniform env fallbackData "Demo ISP" eq_refl)
    as (d & lvl & Hrow & Hrun).
  destruct (provider_row_fun _ _ _ _ _ Hrow fallback_row) as [-> ->].
  run_M. rewrite Hrun. cbn. now rewrite Z.sub_0_r.
Qed.

(** Whether the provider name of a record is a string. *)
Lemma isp_string_or_not (r : IPInfo) :
  (exists name, isp r = VStr name) \/ toLowerCase (isp r) = Throw TypeError.
Proof. destruct (isp r); try (now right). left. now eexists. Qed.

(** What the fetcher stores and logs depends on the response alone, the
    score and level on the stored record and the environment alone; the
    state it starts from only passes its browser record and its log on. *)
Lemma fetchIPInfo_uniform (env : Env.t) (net : fetch_outcome) :
  exists r name d lvl log,
    isp r = VStr name /\
    Spec.provider_row name d lvl /\
    match net with
    | Rejected => r = fallbackData /\ log = [NetworkError]
    | Resolved response =>
        match responseBody response with
        | NotJSON => r = fallbackData /\ log = [SyntaxError]
        | JSON data =>
            match formattedData data with
            | Throw e => r = fallbackData /\ log = [e]
            | Normal fd =>
                (r = fd /\ log = []) \/
                (toLowerCase (isp fd) = Throw TypeError /\
                 r = fallbackData /\ log = [TypeError])
            end
        end
    end /\
    forall st,
      fetchIPInfo env net st =
        (Normal tt,
         mkState (Some r) (browserInfo st) false
                 (100 - ambient_deductions env - d) lvl
                 (console st ++ log)).
Proof.
  assert (forall e,
    exists r name d lvl log,
      isp r = VStr name /\ Spec.provider_row name d lvl /\
      (r = fallbackData /\ log = [e]) /\
      forall st,
        (let (r0, st1) :=
           (console_error e;;
            setIpInfo fallbackData;;
            calculatePrivacyScore env fallbackData) st in
         match setLoading false st1 with
         | (Normal _, st2) => (r0, st2)
         | (Throw e0, st2) => (Throw e0, st2)
         end) =
        (Normal tt,
         mkState (Some r) (browserInfo st) false
                 (100 - ambient_deductions env - d) lvl (console st ++ log)))
    as Hcatch.
  { intros e. exists fallbackData, "Demo ISP", 0, medium, [e].
    split; [reflexivity|]. split; [exact fallback_row|].
    split; [easy|]. intros st. rewrite handler_exact. cbn.
    now rewrite Z.sub_0_r. }
  unfold fetchIPInfo, try_catch_finally.
  destruct net as [|response].
  { destruct (Hcatch NetworkError) as (r & name & d & lvl & log & H1 & H2 & H3 & H4).
    exists r, name, d, lvl, log. repeat (split; [assumption|]). exact H4. }
  unfold json.
  destruct (responseBody response) as [|data] eqn:Hbody.
  { destruct (Hcatch SyntaxError) as (r & name & d & lvl & log & H1 & H2 & H3 & H4).
    exists r, name, d, lvl, log. repeat (split; [assumption|]).
    intros st. rewrite <- (H4 st).
    cbv beta iota zeta delta [mbind M_bind lift fetch]. now rewrite Hbody. }
  destruct (formattedData data) as [fd|e] eqn:Hfd.
  2:{ destruct (Hcatch e) as (r & name & d & lvl & log & H1 & H2 & H3 & H4).
      exists r, name, d, lvl, log. repeat (split; [assumption|]).
      intros st. rewrite <- (H4 st).
      cbv beta iota zeta delta [mbind M_bind lift fetch].
      now rewrite Hbody, Hfd. }
  destruct (isp_string_or_not fd) as [(name & Hname)|Hthrow].
  - destruct (calculatePrivacyScore_uniform env fd name Hname)
      as (d & lvl & Hrow & Hrun).
    exists fd, name, d, lvl, []. split; [exact Hname|]. split; [exact Hrow|].
    split; [now left|]. intros st.
    cbv beta iota zeta delta [mbind M_bind lift fetch setIpInfo setLoading].
    rewrite Hbody, Hfd, Hrun. cbn. now rewrite app_nil_r.
  - destruct (Hcatch TypeError) as (r & name & d & lvl & log & H1 & H2 & (H3 & H3') & H4).
    exists r, name, d, lvl, log. split; [exact H1|]. split; [exact H2|].
    split; [now right|]. intros st.
    assert (forall s, calculatePrivacyScore env fd s = (Throw TypeError, s)) as Hcalc.
    { intros s0. unfold calculatePrivacyScore. now rewrite Hthrow. }
    cbv beta iota zeta delta [mbind M_bind lift fetch setIpInfo].
    rewrite Hbody, Hfd, Hcalc.
    specialize (H4 (mkState (Some fd) (browserInfo st) (loading st)
                            (privacyScore st) (securityLevel st) (console st))).
    cbn [browserInfo console] in H4. exact H4.
Qed.

(** X1. When two requests settle one after the other, the second alone
    decides what the page shows: record, score, level and loading flag are
    those the second would have produced on its own, and the browser record
    is not touched by either. *)
Theorem last_settled_request_wins
    (env_a env_b : Env.t) (net_a net_b : fetch_outcome) (st : State) :
  let both := snd (fetchIPInfo env_b net_b (snd (fetchIPInfo env_a net_a st))) in
  let alone := snd (fetchIPInfo env_b net_b st) in
  ipInfo both = ipInfo alone /\
  privacyScore both = privacyScore alone /\
  securityLevel both = securityLevel alone /\
  loading both = loading alone /\
  browserInfo both = browserInfo st.
Proof.
  destruct (fetchIPInfo_uniform env_a net_a) as (ra & na & da & la & ga & _ & _ & _ & Ha).
  destruct (fetchIPInfo_uniform env_b net_b) as (rb & nb & db & lb & gb & _ & _ & _ & Hb).
  cbv zeta. rewrite !Hb, Ha. now cbn.
Qed.

(** X2. Whatever the response, the record the fetcher leaves in the state
    has a string as provider name, and the score and the level beside it
    are the ones the deduction table gives for that very record. *)
Theorem stored_score_matches_stored_record
    (env : Env.t) (net : fetch_outcome) (st : State) :
  let out := snd (fetchIPInfo env net st) in
  exists r name d,
    ipInfo out = Some r /\
    isp r = VStr name /\
    Spec.provider_row name d (securityLevel out) /\
    privacyScore out = 100 - ambient_deductions env - d.
Proof.
  destruct (fetchIPInfo_uniform env net) as (r & name & d & lvl & log & Hisp & Hrow & _ & Hrun).
  cbv zeta. rewrite Hrun. cbn. now exists r, name, d.
Qed.

(** X3. The fetcher writes to the console at most once per request: a
    network error when the request is rejected, a syntax error when the
    body is not JSON, and nothing at all unless it stores the fallback
    record. *)
Theorem fetch_logs_only_with_fallback
    (env : Env.t) (net : fetch_outcome) (st : State) :
  let out := snd (fetchIPInfo env net st) in
  (net = Rejected -> console out = (console st ++ [NetworkError])%list) /\
  (forall response,
     net = Resolved response -> responseBody response = NotJSON ->
     console out = (console st ++ [SyntaxError])%list) /\
  (ipInfo out <> Some fallbackData -> console out = console st) /\
  (console out = console st \/
   exists e, console out = (console st ++ [e])%list /\
             ipInfo out = Some fallbackData).
Proof.
  destruct (fetchIPInfo_uniform env net) as (r & name & d & lvl & log & _ & _ & Hcase & Hrun).
  cbv zeta. rewrite Hrun. cbn [snd console ipInfo].
  assert ((r = fallbackData /\ exists e, log = [e]) \/ log = []) as Hlog.
  { destruct net as [|response].
    - left. destruct Hcase as [-> ->]. eauto.
    - destruct (responseBody response) as [|data].
      + left. destruct Hcase as [-> ->]. eauto.
      + destruct (formattedData data) as [fd|e].
        * destruct Hcase as [[_ ->]|(_ & -> & ->)]; [now right | left; eauto].
        * left. destruct Hcase as [-> ->]. eauto. }
  split; [|split; [|split]].
  - intros ->. now destruct Hcase as [_ ->].
  - intros response -> Hbody. rewrite Hbody in Hcase. now destruct Hcase as [_ ->].
  - intros Hne. destruct Hlog as [[-> _]| ->]; [easy | apply app_nil_r].
  - destruct Hlog as [[-> (e & ->)]| ->].
    + right. now exists e.
    + left. apply app_nil_r.
Qed.

Lemma fetch_logs_only_with_fallback_witness :
  console (snd (fetchIPInfo Sample.plain Rejected initialState))
    = [NetworkError] /\
  console (snd (fetchIPInfo Sample.plain Sample.rate_limited initialState))
    = [].
Proof.
  split.
  - apply (fetch_logs_only_with_fallback Sample.plain Rejected initialState).
    reflexivity.
  - apply (fetch_logs_only_with_fallback Sample.plain Sample.rate_limited
             initialState).
    vm_compute. discriminate.
Defined.

(** The mapping of an object, field by field. *)
Lemma formattedData_object (m : gmap string value) :
  formattedData (VObj m) =
  Normal {|
    ip := or_else (default VUndefined (m !! "ip")) (VStr "Unknown");
    country := or_else (default VUndefined (m !! "country_name")) (VStr "Unknown");
    region := or_else (default VUndefined (m !! "region")) (VStr "Unknown");
    city := or_else (default VUndefined (m !! "city")) (VStr "Unknown");
    isp := or_else (default VUndefined (m !! "org")) (VStr "Unknown");
    timezone := or_else (default VUndefined (m !! "timezone")) (VStr "Unknown");
    lat := or_else (default VUndefined (m !! "latitude")) (VNum (S754_zero false));
    lon := or_else (default VUndefined (m !! "longitude")) (VNum (S754_zero false))
  |}.
Proof. reflexivity. Qed.

(** X4. A response whose [org] field is truthy but not a string (a number,
    an object, [true]) is discarded as a whole: the scorer throws on the
    mapped record, and the fetcher stores the fallback record and logs a
    type error, however good the other fields are. *)
Theorem non_string_provider_discards_response
    (env : Env.t) (response : Response) (m : gmap string value) (v : value)
    (st : State) :
  responseBody response = JSON (VObj m) ->
  m !! "org" = Some v ->
  truthy v = true ->
  (forall s, v <> VStr s) ->
  let out := snd (fetchIPInfo env (Resolved response) st) in
  ipInfo out = Some fallbackData /\
  console out = (console st ++ [TypeError])%list /\
  securityLevel out = medium.
Proof.
  intros Hbody Horg Htruthy Hnot.
  destruct (fetchIPInfo_uniform env (Resolved response))
    as (r & name & d & lvl & log & Hisp & Hrow & Hcase & Hrun).
  cbv zeta. rewrite Hrun. cbn [snd ipInfo console securityLevel].
  rewrite Hbody, formattedData_object in Hcase.
  destruct Hcase as [[-> _]|(_ & -> & ->)].
  - exfalso. cbn [isp] in Hisp. rewrite Horg in Hisp.
    unfold or_else in Hisp. cbn [default from_option id] in Hisp.
    rewrite Htruthy in Hisp. now apply (Hnot name).
  - injection Hisp as <-.
    now destruct (provider_row_fun _ _ _ _ _ Hrow fallback_row) as [_ ->].
Qed.

Lemma non_string_provider_discards_response_witness :
  let m : gmap string value :=
    <["org" := VNum (S754_finite false 15169 0)]>
      (<["ip" := VStr "203.0.113.7"]> ∅) in
  ipInfo (snd (fetchIPInfo Sample.plain
                 (Resolved (mkResponse 200 (JSON (VObj m)))) initialState))
    = Some fallbackData.
Proof.
  intros m.
  apply (non_string_provider_discards_response Sample.plain
           (mkResponse 200 (JSON (VObj m))) m
           (VNum (S754_finite false 15169 0)) initialState);
    [reflexivity | reflexivity | reflexivity | discriminate].
Defined.

(** X5. After a rejected request or a body that is not JSON the level is
    medium, the "Proxy Detection" badge reads "None", and the score is 100
    less the three ambient deductions, so at least 55. *)
Theorem failed_request_scores_fallback
    (env : Env.t) (net : fetch_outcome) (st : State) :
  Spec.request_rejected net ->
  let out := snd (fetchIPInfo env net st) in
  securityLevel out = medium /\
  proxyDetection out = "None" /\
  privacyScore out = 100 - ambient_deductions env /\
  55 <= privacyScore out.
Proof.
  intros Hrej.
  destruct (fetchIPInfo_uniform env net)
    as (r & name & d & lvl & log & Hisp & Hrow & Hcase & Hrun).
  cbv zeta. rewrite Hrun. unfold proxyDetection.
  cbn [snd privacyScore securityLevel].
  assert (r = fallbackData) as ->.
  { destruct net as [|response]; [now destruct Hcase|].
    cbn in Hrej. rewrite Hrej in Hcase. now destruct Hcase. }
  injection Hisp as <-.
  destruct (provider_row_fun _ _ _ _ _ Hrow fallback_row) as [-> ->].
  pose proof (ambient_deductions_range env).
  repeat split; try reflexivity; lia.
Qed.

Lemma failed_request_scores_fallback_witness :
  Spec.request_rejected Rejected /\
  privacyScore (snd (fetchIPInfo Sample.plain Rejected initialState)) = 55.
Proof.
  split; [exact I|].
  destruct (failed_request_scores_fallback Sample.plain Rejected initialState I)
    as (_ & _ & -> & _).
  reflexivity.
Defined.




(** X7. The two gatherers do not depend on each other: the inspector and a
    settling request leave the same state behind in either order. *)
Theorem gatherers_commute
    (env env' : Env.t) (net : fetch_outcome) (st : State) :
  snd (fetchIPInfo env' net (snd (getBrowserInfo env st))) =
  snd (getBrowserInfo env (snd (fetchIPInfo env' net st))).
Proof.
  destruct (fetchIPInfo_uniform env' net) as (r & name & d & lvl & log & _ & _ & _ & Hf).
  destruct (getBrowserInfo_run env st) as (info & Hg & Hb & Hv & Ho).
  destruct (getBrowserInfo_run env (snd (fetchIPInfo env' net st)))
    as (info' & Hg' & Hb' & Hv' & Ho').
  assert (info' = info) as ->.
  { clear - Hg Hg'. unfold getBrowserInfo in *.
    destruct (detectBrowser (Env.nav_userAgent env)) as [b v].
    unfold setBrowserInfo in *. congruence. }
  rewrite Hg', Hg, !Hf. reflexivity.
Qed.

(** ** Colours and badges *)

Lemma stored_score_bounds (env : Env.t) (net : fetch_outcome) (st : State) :
  exists d,
    0 <= d <= 15 /\
    privacyScore (snd (fetchIPInfo env net st))
      = 100 - ambient_deductions env - d.
Proof.
  destruct (fetchIPInfo_uniform env net)
    as (r & name & d & lvl & log & _ & Hrow & _ & Hrun).
  exists d. split; [exact (provider_row_range _ _ _ Hrow)|].
  now rewrite Hrun.
Qed.

(** X8. The colour of the score that a settled request leaves behind: never
    red when the page is on a secure transport, and never green when both
    cookies and geolocation are available. *)
Theorem score_colour_after_fetch
    (env : Env.t) (net : fetch_outcome) (st : State) :
  let colour := getScoreColor (privacyScore (snd (fetchIPInfo env net st))) in
  (secureTransport env = true -> colour <> "text-red-500") /\
  (Env.nav_cookieEnabled env = true -> Env.nav_geolocation env = true ->
   colour <> "text-emerald-500").
Proof.
  destruct (stored_score_bounds env net st) as (d & Hd & ->).
  unfold getScoreColor, ambient_deductions, Spec.transport_deduction,
    Spec.cookie_deduction, Spec.geolocation_deduction.
  split.
  - intros ->.
    destruct (Env.nav_cookieEnabled env), (Env.nav_geolocation env);
      destruct (80 <=? _) eqn:E1; try discriminate;
      destruct (60 <=? _) eqn:E2; try discriminate; lia.
  - intros -> ->.
    destruct (secureTransport env);
      destruct (80 <=? _) eqn:E1; try lia;
      destruct (60 <=? _) eqn:E2; discriminate.
Qed.

Lemma score_colour_after_fetch_witness :
  secureTransport Sample.hardened = true /\
  getScoreColor
    (privacyScore (snd (fetchIPInfo Sample.hardened Rejected initialState)))
    <> "text-red-500".
Proof.
  split; [reflexivity|].
  apply (score_colour_after_fetch Sample.hardened Rejected initialState).
  reflexivity.
Defined.

(** X9. The badge of a level held in the state never falls to the
    [default] grey, distinct levels get distinct colours, and after a
    settled request the "Proxy Detection" badge reads "Detected" exactly
    when the stored provider name contains "google" or "cloudflare"
    (without regard to case). *)
Theorem badges_follow_the_level
    (env : Env.t) (net : fetch_outcome) (st : State) :
  (forall l, getSecurityBadgeColor (levelName l) <> "bg-gray-500") /\
  (forall l1 l2,
     getSecurityBadgeColor (levelName l1) = getSecurityBadgeColor (levelName l2) ->
     l1 = l2) /\
  let out := snd (fetchIPInfo env net st) in
  exists r name,
    ipInfo out = Some r /\ isp r = VStr name /\
    (proxyDetection out = "Detected" <-> Spec.google_or_cloudflare name).
Proof.
  split; [now intros []|]. split; [now intros [] []|].
  destruct (fetchIPInfo_uniform env net)
    as (r & name & d & lvl & log & Hisp & Hrow & _ & Hrun).
  cbv zeta. rewrite Hrun. exists r, name.
  split; [reflexivity|]. split; [exact Hisp|].
  unfold proxyDetection. cbn [snd securityLevel].
  destruct Hrow as [(G & _ & ->)|[(G & _ & _ & ->)|(G & _ & _ & ->)]];
    cbn; split; easy.
Qed.

Lemma badges_follow_the_level_witness :
  let net := Resolved (mkResponse 200 (JSON (VObj
               (<["org" := VStr "GOOGLE-CLOUD-PLATFORM"]> ∅)))) in
  Spec.google_or_cloudflare "GOOGLE-CLOUD-PLATFORM" /\
  proxyDetection (snd (fetchIPInfo Sample.plain net initialState)) = "Detected".
Proof.
  intros net.
  destruct (badges_follow_the_level Sample.plain net initialState)
    as (_ & _ & r & name & Hr & Hname & Hiff).
  assert (name = "GOOGLE-CLOUD-PLATFORM") as ->.
  { injection Hr as <-. now injection Hname as <-. }
  assert (Spec.google_or_cloudflare "GOOGLE-CLOUD-PLATFORM") as G.
  { left. exists "GOOGLE". split; [reflexivity|].
    now exists "", "-CLOUD-PLATFORM". }
  split; [exact G | exact (proj2 Hiff G)].
Defined.

(** ** Further properties of the environment inspector *)

Section Extraction.

Local Open Scope string_scope.
#[local] Arguments String.append !_ _ / : simpl nomatch.

Lemma append_same_length (a1 b1 a2 b2 : string) :
  a1 ++ b1 = a2 ++ b2 -> String.length a1 = String.length a2 ->
  a1 = a2 /\ b1 = b2.
Proof.
  revert a2; induction a1 as [|c a1 IH]; intros [|c' a2]; simpl;
    try discriminate.
  - now intros ->.
  - intros [= -> H] [= Hl]. destruct (IH a2 H Hl) as [-> ->]. now split.
Qed.

Lemma append_cancel (a b1 b2 : string) : a ++ b1 = a ++ b2 -> b1 = b2.
Proof. intros H. now apply (append_same_length a b1 a b2). Qed.

Lemma digit_run_unique (d1 post1 d2 post2 : string) :
  d1 ++ post1 = d2 ++ post2 ->
  Spec.digits d1 -> Spec.no_digit_ahead post1 ->
  Spec.digits d2 -> Spec.no_digit_ahead post2 ->
  d1 = d2.
Proof.
  revert d2; induction d1 as [|c d1 IH]; intros [|c' d2]; simpl.
  - reflexivity.
  - intros -> _ Hp [Hc _] _. simpl in Hp. congruence.
  - intros <- [Hc _] _ _ Hp. simpl in Hp. congruence.
  - intros [= -> H] [_ Hd1] Hp1 [_ Hd2] Hp2. f_equal. now apply IH.
Qed.

Lemma digits_ahead (d post : string) :
  d <> "" -> Spec.digits d -> ~ Spec.no_digit_ahead (d ++ post).
Proof.
  destruct d as [|c d]; [easy|]. simpl. intros _ [Hc _] H. congruence.
Qed.

Lemma extracts_unique (tag s d1 d2 : string) :
  Spec.extracts tag s d1 -> Spec.extracts tag s d2 -> d1 = d2.
Proof.
  intros (pre1 & post1 & Hs1 & Hne1 & Hd1 & Hp1 & Hleft1)
         (pre2 & post2 & Hs2 & Hne2 & Hd2 & Hp2 & Hleft2).
  destruct (Nat.lt_trichotomy (String.length pre1) (String.length pre2))
    as [Hlt|[Heq|Hgt]].
  - exfalso. apply (digits_ahead d1 post1 Hne1 Hd1).
    now apply (Hleft2 pre1 (d1 ++ post1) Hs1).
  - rewrite Hs1 in Hs2.
    destruct (append_same_length _ _ _ _ Hs2 Heq) as [_ H].
    apply append_cancel in H.
    now apply (digit_run_unique d1 post1 d2 post2).
  - exfalso. apply (digits_ahead d2 post2 Hne2 Hd2).
    now apply (Hleft1 pre2 (d2 ++ post2) Hs2).
Qed.

(** X10. The search [s.match(/tag(\d+)/)] that yields the version is
    leftmost and greedy, exactly: it returns [d] if and only if [d] is the
    whole run of digits behind the first [tag] that is followed by a
    digit, and returns nothing if and only if no [tag] in [s] is followed
    by a digit. *)
Theorem version_pattern_exact (tag s : string) :
  (forall d, Str.matchDigitsAfter tag s = Some d <-> Spec.extracts tag s d) /\
  (Str.matchDigitsAfter tag s = None <-> Spec.no_match tag s).
Proof.
  split.
  - intros d. split; [apply matchDigitsAfter_Some|].
    intros He. destruct (Str.matchDigitsAfter tag s) as [d'|] eqn:Hm.
    + f_equal. apply matchDigitsAfter_Some in Hm.
      exact (extracts_unique tag s d' d Hm He).
    + exfalso. apply matchDigitsAfter_None in Hm.
      destruct He as (pre & post & Hs & Hne & Hd & _).
      exact (digits_ahead d post Hne Hd (Hm pre (d ++ post) Hs)).
  - split; [apply matchDigitsAfter_None|].
    intros Hn. destruct (Str.matchDigitsAfter tag s) as [d|] eqn:Hm;
      [|reflexivity].
    exfalso. apply matchDigitsAfter_Some in Hm.
    destruct Hm as (pre & post & Hs & Hne & Hd & _).
    exact (digits_ahead d post Hne Hd (Hn pre (d ++ post) Hs)).
Qed.

Lemma version_pattern_exact_witness :
  Spec.extracts "Chrome/" Sample.android_chrome "120" /\
  Spec.no_match "Firefox/" Sample.android_chrome.
Proof.
  split.
  - apply (version_pattern_exact "Chrome/" Sample.android_chrome). reflexivity.
  - apply (version_pattern_exact "Firefox/" Sample.android_chrome). reflexivity.
Defined.

End Extraction.

(** X11. What the inspector can report: the family is one of "Chrome",
    "Firefox", "Safari", "Edge", "Unknown"; the version is "Unknown" or a
    string of digits that is not empty, and "Unknown" whenever the family
    is; the system is one of "Windows", "macOS", "Linux", "Android", "iOS",
    "Unknown". *)
Theorem inspector_reports_known_values (env : Env.t) (st : State) :
  exists info,
    browserInfo (snd (getBrowserInfo env st)) = Some info /\
    In (browser info) ["Chrome"; "Firefox"; "Safari"; "Edge"; "Unknown"] /\
    (version info = "Unknown" \/
     (version info <> "" /\ Spec.digits (version info))) /\
    (browser info = "Unknown" -> version info = "Unknown") /\
    In (os info) ["Windows"; "macOS"; "Linux"; "Android"; "iOS"; "Unknown"].
Proof.
  destruct (getBrowserInfo_run env st) as (info & -> & Hb & Hv & Ho).
  exists info. split; [reflexivity|].
  pose proof (detectBrowser_rule (Env.nav_userAgent env)) as Hrule.
  pose proof (detectOS_rule (Env.nav_userAgent env)) as Hos.
  rewrite <- Hb, <- Hv in Hrule. rewrite <- Ho in Hos.
  assert (forall tag, Spec.version_of tag (Env.nav_userAgent env) (version info) ->
            version info = "Unknown" \/
            (version info <> "" /\ Spec.digits (version info))) as Hver.
  { intros tag [(pre & post & _ & Hne & Hd & _)|[_ ->]]; [now right | now left]. }
  destruct Hrule as
    [(_ & -> & V)|[(_ & _ & -> & V)|[(_ & _ & _ & -> & V)|
     [(_ & _ & _ & _ & -> & V)|(_ & _ & _ & _ & -> & V)]]]].
  5:{ rewrite V. split; [cbn; tauto|]. split; [now left|]. split; [easy|].
      destruct Hos as [(_ & ->)|[(_ & _ & ->)|[(_ & _ & _ & ->)|
        [(_ & _ & _ & _ & ->)|[(_ & _ & _ & _ & _ & ->)|(_ & _ & _ & _ & _ & ->)]]]]];
        cbn; tauto. }
  all: split; [cbn; tauto|]; split; [exact (Hver _ V)|]; split; [discriminate|];
    destruct Hos as [(_ & ->)|[(_ & _ & ->)|[(_ & _ & _ & ->)|
      [(_ & _ & _ & _ & ->)|[(_ & _ & _ & _ & _ & ->)|(_ & _ & _ & _ & _ & ->)]]]]];
    cbn; tauto.
Qed.

Lemma inspector_reports_known_values_witness :
  exists info,
    browserInfo (snd (getBrowserInfo Sample.plain initialState)) = Some info /\
    (version info = "Unknown" \/
     (version info <> "" /\ Spec.digits (version info))).
Proof.
  destruct (inspector_reports_known_values Sample.plain initialState)
    as (info & Hinfo & _ & Hversion & _).
  now exists info.
Defined.

(** X12. An earlier test hides a later one: "Firefox" is reported only
    without "Chrome" in the user agent, "Safari" only without "Chrome" and
    "Firefox", and "Edge" only without any of the three, so a user agent
    that names Edge next to Chrome or Safari is never reported as Edge. *)
Theorem later_families_need_earlier_absent (env : Env.t) (st : State) :
  exists info,
    browserInfo (snd (getBrowserInfo env st)) = Some info /\
    let ua := Env.nav_userAgent env in
    (browser info = "Firefox" ->
     Spec.occurs_in "Firefox" ua /\ ~ Spec.occurs_in "Chrome" ua) /\
    (browser info = "Safari" ->
     Spec.occurs_in "Safari" ua /\
     ~ Spec.occurs_in "Chrome" ua /\ ~ Spec.occurs_in "Firefox" ua) /\
    (browser info = "Edge" ->
     Spec.occurs_in "Edge" ua /\
     ~ Spec.occurs_in "Chrome" ua /\ ~ Spec.occurs_in "Firefox" ua /\
     ~ Spec.occurs_in "Safari" ua).
Proof.
  destruct (getBrowserInfo_run env st) as (info & -> & Hb & Hv & _).
  exists info. split; [reflexivity|].
  pose proof (detectBrowser_rule (Env.nav_userAgent env)) as Hrule.
  rewrite <- Hb, <- Hv in Hrule. cbv zeta.
  destruct Hrule as
    [(_ & -> & _)|[(C & F & -> & _)|[(C & F & S & -> & _)|
     [(C & F & S & E & -> & _)|(_ & _ & _ & _ & -> & _)]]]];
    repeat split; try discriminate; assumption.
Qed.

Lemma later_families_need_earlier_absent_witness :
  let env := Env.mk
    "Mozilla/5.0 (Windows NT 10.0; Win64; x64) AppleWebKit/537.36 (KHTML, like Gecko) Chrome/70.0.3538.102 Safari/537.36 Edge/18.19042"
    "Win32" "en-US" true true "https:" false 1920 1080 1280 720 in
  exists info,
    browserInfo (snd (getBrowserInfo env initialState)) = Some info /\
    browser info <> "Edge".
Proof.
  intros env.
  destruct (later_families_need_earlier_absent env initialState)
    as (info & Hinfo & _ & _ & Hedge).
  exists info. split; [exact Hinfo|].
  intros H. destruct (Hedge H) as (_ & Hc & _). apply Hc.
  now apply includes_occurs.
Defined.

(** X13. "Mac" is tested before "iOS": a user agent that contains "Mac" and
    not "Windows" is reported as "macOS" (every iPhone says "like Mac OS X"),
    and "iOS" is reported only for a user agent that contains "iOS" and
    none of "Windows", "Mac", "Linux", "Android". *)
Theorem iphone_reported_as_macos (env : Env.t) (st : State) :
  exists info,
    browserInfo (snd (getBrowserInfo env st)) = Some info /\
    let ua := Env.nav_userAgent env in
    (Spec.occurs_in "Mac" ua -> ~ Spec.occurs_in "Windows" ua ->
     os info = "macOS") /\
    (os info = "iOS" ->
     Spec.occurs_in "iOS" ua /\
     ~ Spec.occurs_in "Windows" ua /\ ~ Spec.occurs_in "Mac" ua /\
     ~ Spec.occurs_in "Linux" ua /\ ~ Spec.occurs_in "Android" ua).
Proof.
  destruct (getBrowserInfo_run env st) as (info & -> & _ & _ & Ho).
  exists info. split; [reflexivity|].
  pose proof (detectOS_rule (Env.nav_userAgent env)) as Hrule.
  rewrite <- Ho in Hrule. cbv zeta.
  destruct Hrule as
    [(W & ->)|[(W & M & ->)|[(W & M & L & ->)|[(W & M & L & A & ->)|
     [(W & M & L & A & I & ->)|(W & M & L & A & I & ->)]]]]];
    repeat split; try discriminate; try assumption; try easy.
Qed.

Lemma iphone_reported_as_macos_witness :
  let env := Env.mk
    "Mozilla/5.0 (iPhone; CPU iPhone OS 17_4 like Mac OS X) AppleWebKit/605.1.15 (KHTML, like Gecko) Version/17.4 Mobile/15E148 Safari/604.1"
    "iPhone" "en-US" true true "https:" false 390 844 390 664 in
  exists info,
    browserInfo (snd (getBrowserInfo env initialState)) = Some info /\
    os info = "macOS" /\ browser info = "Safari" /\ version info = "17".
Proof.
  intros env.
  destruct (iphone_reported_as_macos env initialState)
    as (info & Hinfo & Hmac & _).
  exists info. split; [exact Hinfo|]. split.
  - apply Hmac; [now apply includes_occurs | now apply includes_false].
  - now injection Hinfo as <-.
Defined.

(** ** The life of a page view *)

Lemma mount_run (env : Env.t) :
  exists info,
    mount env initialPage =
      (Normal tt,
       mkPage (mkState None (Some info) true 0 medium []) 1%nat []).
Proof.
  destruct (getBrowserInfo_run env initialState) as (info & Hrun & _).
  exists info. unfold mount, mbind, P_bind, startFetch, onView, initialPage.
  cbn [view inflight toasts]. now rewrite Hrun.
Qed.

Lemma refreshData_run (env : Env.t) (p : Page) :
  exists info,
    refreshData env p =
      (Normal tt,
       mkPage (mkState (ipInfo (view p)) (Some info) true
                       (privacyScore (view p)) (securityLevel (view p))
                       (console (view p)))
              (S (inflight p))
              (toasts p ++ ["Information refreshed successfully!"])).
Proof.
  destruct (getBrowserInfo_run env
              (mkState (ipInfo (view p)) (browserInfo (view p)) true
                       (privacyScore (view p)) (securityLevel (view p))
                       (console (view p)))) as (info & Hrun & _).
  exists info.
  unfold refreshData, mbind, P_bind, startFetch, onView, toast_success,
    setLoading.
  cbn [view inflight toasts]. now rewrite Hrun.
Qed.

Lemma settle_run (env : Env.t) (net : fetch_outcome) (p : Page) :
  exists r name d lvl log,
    isp r = VStr name /\ Spec.provider_row name d lvl /\
    settle env net p =
      (Normal tt,
       mkPage (mkState (Some r) (browserInfo (view p)) false
                       (100 - ambient_deductions env - d) lvl
                       (console (view p) ++ log))
              (Nat.pred (inflight p)) (toasts p)).
Proof.
  destruct (fetchIPInfo_uniform env net)
    as (r & name & d & lvl & log & Hisp & Hrow & _ & Hrun).
  exists r, name, d, lvl, log. split; [exact Hisp|]. split; [exact Hrow|].
  unfold settle, onView. cbn [view inflight toasts]. now rewrite Hrun.
Qed.

Lemma page_ok_step (ev : event) (p : Page) :
  page_ok p -> enabled ev p = true ->
  exists p', fire ev p = (Normal tt, p') /\ page_ok p' /\
    toasts p' =
      (toasts p ++
       match ev with
       | Click _ => ["Information refreshed successfully!"]
       | Settle _ _ => []
       end)%list.
Proof.
  intros (Hle & Hiff & Hb & Hshown) Hen. destruct ev as [env|env net]; cbn in Hen.
  - destruct (refreshData_run env p) as (info & Hrun).
    eexists. split; [exact Hrun|]. split; [|reflexivity].
    assert (inflight p = 0%nat) as H0.
    { destruct (loading (view p)); [discriminate|].
      destruct (inflight p) as [|[|n]]; [reflexivity| |lia].
      now destruct Hiff as [_ H]; specialize (H eq_refl). }
    unfold page_ok. cbn [view inflight loading browserInfo]. rewrite H0.
    repeat split; easy.
  - destruct (settle_run env net p) as (r & name & d & lvl & log & Hisp & Hrow & Hrun).
    eexists. split; [exact Hrun|]. split; [|now rewrite app_nil_r].
    assert (inflight p = 1%nat) as H1.
    { destruct (inflight p) as [|[|n]]; [discriminate|reflexivity|lia]. }
    unfold page_ok.
    cbn [view inflight loading browserInfo ipInfo securityLevel privacyScore].
    rewrite H1. cbn [Nat.pred].
    split; [lia|]. split; [split; discriminate|]. split; [exact Hb|].
    intros _. exists r, name, d. repeat split; try assumption.
    + pose proof (ambient_deductions_range env).
      pose proof (provider_row_range _ _ _ Hrow). lia.
    + pose proof (ambient_deductions_range env).
      pose proof (provider_row_range _ _ _ Hrow). lia.
Qed.

Lemma play_ok (evs : list event) (p q : Page) :
  page_ok p -> play evs p = Some q ->
  page_ok q /\
  toasts q =
    (toasts p ++
     repeat "Information refreshed successfully!" (clicks evs))%list.
Proof.
  revert p; induction evs as [|ev evs IH]; intros p Hok; cbn [play].
  - intros [= <-]. split; [exact Hok|]. cbn. now rewrite app_nil_r.
  - destruct (enabled ev p) eqn:Hen; [|discriminate].
    destruct (page_ok_step ev p Hok Hen) as (p' & -> & Hok' & Ht).
    intros Hplay. destruct (IH p' Hok' Hplay) as (Hq & Htq).
    split; [exact Hq|]. rewrite Htq, Ht, <- app_assoc. f_equal.
    unfold clicks. destruct ev; reflexivity.
Qed.

(** X14. Through a whole page view, whatever the visitor clicks and however
    the requests settle: at most one request is in flight, the spinner is
    up exactly while one is (so "Refresh Data" cannot be clicked during a
    request), the browser record is always there, and whenever the
    dashboard is shown the state holds a record with a string provider
    name, the level of that name and a score between 40 and 100. *)
Theorem page_view_invariant (env : Env.t) (evs : list event) (p : Page) :
  visit env evs = Some p -> page_ok p.
Proof.
  unfold visit. destruct (mount_run env) as (info & ->).
  intros Hplay. refine (proj1 (play_ok evs _ p _ Hplay)).
  unfold page_ok. cbn. repeat split; easy.
Qed.

Lemma page_view_invariant_witness :
  exists p,
    visit Sample.plain
      [Settle Sample.plain Rejected; Click Sample.hardened;
       Settle Sample.hardened Sample.rate_limited] = Some p /\
    page_ok p.
Proof.
  eexists. split; [vm_compute; reflexivity|].
  apply (page_view_invariant Sample.plain
           [Settle Sample.plain Rejected; Click Sample.hardened;
            Settle Sample.hardened Sample.rate_limited]).
  vm_compute. reflexivity.
Defined.

(** X15. Every click on "Refresh Data" shows the toast "Information
    refreshed successfully!" at once, before its request has settled, and
    nothing else is ever shown as a toast: after any page view the toasts
    are that message once per click, however many of the requests
    failed. *)
Theorem refresh_always_announces_success
    (env : Env.t) (evs : list event) (p : Page) :
  visit env evs = Some p ->
  toasts p = repeat "Information refreshed successfully!" (clicks evs).
Proof.
  unfold visit. destruct (mount_run env) as (info & ->).
  intros Hplay.
  refine (proj2 (play_ok evs _ p _ Hplay)).
  unfold page_ok. cbn. repeat split; easy.
Qed.

Lemma refresh_always_announces_success_witness :
  exists p,
    visit Sample.plain
      [Settle Sample.plain Rejected; Click Sample.plain;
       Settle Sample.plain Rejected] = Some p /\
    toasts p = ["Information refreshed successfully!"] /\
    ipInfo (view p) = Some fallbackData /\
    console (view p) = [NetworkError; NetworkError].
Proof.
  eexists. split; [vm_compute; reflexivity|]. split.
  - apply (refresh_always_announces_success Sample.plain
             [Settle Sample.plain Rejected; Click Sample.plain;
              Settle Sample.plain Rejected]).
    vm_compute. reflexivity.
  - split; reflexivity.
Defined.


